(** * sasha-pilots: the conversation dashboards and their API routes

    A shallow embedding of the two dashboards ("matei" and "sasha") and of
    the route handlers behind them:

    - [Dashboard]: the React state of [page.tsx] together with
      [applyFilters], [fetchConversations], [deleteConversation] and
      [clearFilters], then [getUniqueAgents], [getDaysAgo],
      [formatDuration] and the text of [copyTranscript];
    - [Analyze], [GenerateSummary], [GeminiTemplate], [SashaEmail] and
      [MateiEmail]: the [POST] handlers of [/api/analyze],
      [/api/generate-summary], [/api/gemini-template] and the two
      [/api/space-fact-email] routes, written in a small state-and-exception
      monad whose state records every outbound [fetch];
      [ConversationRoute]: [GET] and [DELETE /api/conversations/{id}];
    - [Panel]: the state behind the question box, the summaries and the
      e-mail dialog, with [askQuestion], [generateGeminiSummary],
      [generateEmailPreview], [confirmSendEmail] and [sendSpaceFactEmail],
      and [serve], which puts the handlers behind the dashboard's calls.

    Conventions of the embedding.  A JavaScript string is the [string] of
    the bytes of its UTF-8 encoding.  [toLowerCase] and [toUpperCase] act on
    the ASCII letters, which is what JavaScript does on text of ASCII
    characters ([JsString.is_ascii]); [trim] knows the encodings of every
    white-space character and line terminator.  JavaScript numbers that take part in arithmetic are exact
    rationals ([Q]); rounding, [NaN] and infinities of IEEE doubles are not
    modelled.  [Date.now()] is an explicit argument, in milliseconds.
    Decoded JSON bodies are records typed after the interfaces and the
    callback annotations of the source; a field that may be missing is an
    [option]. *)

From Stdlib Require Import ZArith QArith Qround Lqa Lia List String Ascii Bool Sorted Permutation.
From stdpp Require Import base strings pretty gmap.
Import ListNotations.

Local Open Scope string_scope.
Local Open Scope Z_scope.

(* ===================================================================== *)
(** ** JavaScript strings *)
(* ===================================================================== *)

Module JsString.

Definition lower_char (c : ascii) : ascii :=
  let n := nat_of_ascii c in
  if ((65 <=? n) && (n <=? 90))%nat then ascii_of_nat (n + 32) else c.

Definition upper_char (c : ascii) : ascii :=
  let n := nat_of_ascii c in
  if ((97 <=? n) && (n <=? 122))%nat then ascii_of_nat (n - 32) else c.

Fixpoint map_chars (f : ascii -> ascii) (s : string) : string :=
  match s with
  | EmptyString => EmptyString
  | String c s' => String (f c) (map_chars f s')
  end.

(** [s.toLowerCase()] and [s.toUpperCase()], on text of ASCII characters:
    the letters A-Z and a-z are the only ones mapped. *)
Definition toLowerCase : string -> string := map_chars lower_char.
Definition toUpperCase : string -> string := map_chars upper_char.

(** Text of ASCII characters: every byte is below 128. *)
Fixpoint is_ascii (s : string) : bool :=
  match s with
  | EmptyString => true
  | String c s' => (nat_of_ascii c <? 128)%nat && is_ascii s'
  end.

(** [hay.includes(needle)]: [needle] occurs in [hay] as a substring. *)
Fixpoint includes (hay needle : string) : bool :=
  String.prefix needle hay
  || match hay with
     | EmptyString => false
     | String _ hay' => includes hay' needle
     end.

(** Truthiness of a string: only [''] is falsy. *)
Definition truthy (s : string) : bool :=
  match s with EmptyString => false | _ => true end.

(** [xs.join(sep)] on an array of strings. *)
Fixpoint join (sep : string) (xs : list string) : string :=
  match xs with
  | [] => ""
  | [x] => x
  | x :: xs' => x ++ sep ++ join sep xs'
  end.

(** The line feed, as written ['\n'] in a string or as a line break in a
    template literal. *)
Definition nl : string := String (ascii_of_nat 10) EmptyString.

End JsString.

(* ===================================================================== *)
(** ** The dashboard ([page.tsx]) *)
(* ===================================================================== *)

(** [interface Conversation].  [null] and an absent optional field are both
    [None]. *)
Record Conversation := mkConversation {
  agent_id : string;
  agent_name : string;
  conversation_id : string;
  start_time_unix_secs : Q;
  call_duration_secs : Z;
  message_count : Z;
  status : string;
  call_successful : string;
  transcript_summary : option string;
  call_summary_title : option string;
  gemini_summary : option string
}.

(** [useState<'last' | 'all'>('last')]. *)
Inductive ViewMode := last | all.

(** What [fetch] gives back to the dashboard: the promise rejects, or it
    resolves to a response with its [ok] flag and its decoded body. *)
Inductive Fetched (A : Type) :=
| Rejected
| Resolved (ok : bool) (body : A).
Arguments Rejected {A}.
Arguments Resolved {A} ok body.

(** The state variables of [Dashboard()] that the list logic reads or
    writes. *)
Record Dashboard := mkDashboard {
  conversations : list Conversation;
  filteredConversations : list Conversation;
  viewMode : ViewMode;
  loading : bool;
  error : option string;
  searchTerm : string;
  statusFilter : string;
  agentFilter : string;
  successFilter : string;
  dateFilter : string
}.

Definition setConversations (l : list Conversation) (st : Dashboard) : Dashboard :=
  mkDashboard l (filteredConversations st) (viewMode st) (loading st) (error st)
    (searchTerm st) (statusFilter st) (agentFilter st) (successFilter st)
    (dateFilter st).

Definition setFilteredConversations (l : list Conversation) (st : Dashboard) : Dashboard :=
  mkDashboard (conversations st) l (viewMode st) (loading st) (error st)
    (searchTerm st) (statusFilter st) (agentFilter st) (successFilter st)
    (dateFilter st).

Definition setError (e : option string) (st : Dashboard) : Dashboard :=
  mkDashboard (conversations st) (filteredConversations st) (viewMode st)
    (loading st) e
    (searchTerm st) (statusFilter st) (agentFilter st) (successFilter st)
    (dateFilter st).

Definition setLoading (b : bool) (st : Dashboard) : Dashboard :=
  mkDashboard (conversations st) (filteredConversations st) (viewMode st)
    b (error st)
    (searchTerm st) (statusFilter st) (agentFilter st) (successFilter st)
    (dateFilter st).

Definition setViewMode (v : ViewMode) (st : Dashboard) : Dashboard :=
  mkDashboard (conversations st) (filteredConversations st) v
    (loading st) (error st)
    (searchTerm st) (statusFilter st) (agentFilter st) (successFilter st)
    (dateFilter st).

Definition setSearchTerm (s : string) (st : Dashboard) : Dashboard :=
  mkDashboard (conversations st) (filteredConversations st) (viewMode st)
    (loading st) (error st)
    s (statusFilter st) (agentFilter st) (successFilter st) (dateFilter st).

Definition setStatusFilter (s : string) (st : Dashboard) : Dashboard :=
  mkDashboard (conversations st) (filteredConversations st) (viewMode st)
    (loading st) (error st)
    (searchTerm st) s (agentFilter st) (successFilter st) (dateFilter st).

Definition setAgentFilter (s : string) (st : Dashboard) : Dashboard :=
  mkDashboard (conversations st) (filteredConversations st) (viewMode st)
    (loading st) (error st)
    (searchTerm st) (statusFilter st) s (successFilter st) (dateFilter st).

Definition setSuccessFilter (s : string) (st : Dashboard) : Dashboard :=
  mkDashboard (conversations st) (filteredConversations st) (viewMode st)
    (loading st) (error st)
    (searchTerm st) (statusFilter st) (agentFilter st) s (dateFilter st).

Definition setDateFilter (s : string) (st : Dashboard) : Dashboard :=
  mkDashboard (conversations st) (filteredConversations st) (viewMode st)
    (loading st) (error st)
    (searchTerm st) (statusFilter st) (agentFilter st) (successFilter st) s.

(** The initial values passed to [useState]. *)
Definition initial : Dashboard :=
  mkDashboard [] [] last true None "" "all" "all" "all" "all".

(** [clearFilters]. *)
Definition clearFilters (st : Dashboard) : Dashboard :=
  setDateFilter "all"
    (setSuccessFilter "all"
       (setAgentFilter "all" (setStatusFilter "all" (setSearchTerm "" st)))).

(** *** The cutoff table of [applyFilters] *)

(** The value of [{today: .., week: .., month: ..}[dateFilter]]: a number
    for the three own keys, a member inherited from [Object.prototype] for
    the names every object literal answers to, [undefined] otherwise. *)
Inductive Cutoff :=
| cutoff_undefined
| cutoff_number (q : Q)
| cutoff_inherited.

Definition Object_prototype_keys : list string :=
  [ "constructor"; "hasOwnProperty"; "isPrototypeOf"; "propertyIsEnumerable";
    "toLocaleString"; "toString"; "valueOf"; "__proto__";
    "__defineGetter__"; "__defineSetter__"; "__lookupGetter__";
    "__lookupSetter__" ].

(** [const now = Date.now() / 1000]. *)
Definition now_secs (Date_now : Z) : Q := inject_Z Date_now / 1000.

Definition cutoff_of (now : Q) (key : string) : Cutoff :=
  if String.eqb key "today" then cutoff_number (now - 24 * 60 * 60)%Q
  else if String.eqb key "week" then cutoff_number (now - 7 * 24 * 60 * 60)%Q
  else if String.eqb key "month" then cutoff_number (now - 30 * 24 * 60 * 60)%Q
  else if existsb (String.eqb key) Object_prototype_keys then cutoff_inherited
  else cutoff_undefined.

(** [if (cutoff)]: [undefined] and [0] are falsy, a function or an object
    is truthy. *)
Definition cutoff_truthy (c : Cutoff) : bool :=
  match c with
  | cutoff_undefined => false
  | cutoff_number q => negb (Qeq_bool q 0)
  | cutoff_inherited => true
  end.

(** [conv.start_time_unix_secs >= cutoff]: an inherited member converts to
    [NaN], against which every comparison is false. *)
Definition at_or_after (c : Cutoff) (conv : Conversation) : bool :=
  match c with
  | cutoff_number q => Qle_bool q (start_time_unix_secs conv)
  | _ => false
  end.

(** [conv.call_summary_title?.toLowerCase().includes(..) ||
     conv.agent_name.toLowerCase().includes(..)]. *)
Definition matches_search (term : string) (conv : Conversation) : bool :=
  match call_summary_title conv with
  | Some title =>
      JsString.includes (JsString.toLowerCase title) (JsString.toLowerCase term)
  | None => false
  end
  || JsString.includes (JsString.toLowerCase (agent_name conv))
       (JsString.toLowerCase term).

(** *** [applyFilters] *)

(** Both dashboard pages carry the same [applyFilters]; it reads the state
    and the clock and stores the list it computed with
    [setFilteredConversations]. *)

Definition applyFilters (Date_now : Z) (st : Dashboard) : Dashboard :=
  let filtered := conversations st in
  let filtered :=
    match viewMode st with
    | last =>
        match conversations st with
        | c0 :: _ => [c0]
        | [] => []
        end
    | all =>
        let filtered :=
          if JsString.truthy (searchTerm st)
          then List.filter (matches_search (searchTerm st)) filtered
          else filtered in
        let filtered :=
          if negb (String.eqb (statusFilter st) "all")
          then List.filter (fun conv => String.eqb (status conv) (statusFilter st)) filtered
          else filtered in
        let filtered :=
          if negb (String.eqb (agentFilter st) "all")
          then List.filter (fun conv => String.eqb (agent_name conv) (agentFilter st)) filtered
          else filtered in
        let filtered :=
          if negb (String.eqb (successFilter st) "all")
          then List.filter (fun conv => String.eqb (call_successful conv) (successFilter st)) filtered
          else filtered in
        if negb (String.eqb (dateFilter st) "all")
        then
          let now := now_secs Date_now in
          let cutoff := cutoff_of now (dateFilter st) in
          if cutoff_truthy cutoff
          then List.filter (at_or_after cutoff) filtered
          else filtered
        else filtered
    end in
  setFilteredConversations filtered st.

(** *** [fetchConversations] *)

(** The comparator [(a, b) => b.start_time_unix_secs - a.start_time_unix_secs]
    is not positive, so [a] may stay in front of [b]. *)
Definition stays_before (a b : Conversation) : bool :=
  Qle_bool (start_time_unix_secs b) (start_time_unix_secs a).

Fixpoint insert_sorted (a : Conversation) (l : list Conversation) : list Conversation :=
  match l with
  | [] => [a]
  | b :: l' => if stays_before a b then a :: l else b :: insert_sorted a l'
  end.

(** [data.conversations.sort(comparator)]: [Array.prototype.sort] is stable,
    as is this insertion sort. *)
Fixpoint sort_conversations (l : list Conversation) : list Conversation :=
  match l with
  | [] => []
  | a :: l' => insert_sorted a (sort_conversations l')
  end.

(** [fetchConversations], given what [fetch('/api/conversations')]
    produced.  A rejected promise is an [Error] whose message is [msg]. *)
Definition fetchConversations (response : Fetched (list Conversation))
    (msg : string) (st : Dashboard) : Dashboard :=
  let st :=
    match response with
    | Resolved true data =>
        let sortedConversations := sort_conversations data in
        setFilteredConversations sortedConversations
          (setConversations sortedConversations st)
    | Resolved false _ => setError (Some "Failed to fetch conversations") st
    | Rejected => setError (Some msg) st
    end in
  setLoading false st.

(** *** [deleteConversation] *)

(** [prev => prev.filter(conv => conv.conversation_id !== conversationId)]. *)
Definition without (conversationId : string) (prev : list Conversation) : list Conversation :=
  List.filter (fun conv => negb (String.eqb (conversation_id conv) conversationId)) prev.

(** [deleteConversation], given what the [DELETE] request produced: the two
    lists are updated only when [response.ok]. *)
Definition deleteConversation (response : Fetched unit) (conversationId : string)
    (st : Dashboard) : Dashboard :=
  match response with
  | Resolved true _ =>
      setFilteredConversations (without conversationId (filteredConversations st))
        (setConversations (without conversationId (conversations st)) st)
  | _ => st
  end.

(** *** The dashboard as a transition system *)

(** One event of the dashboard: a fetch or a delete completes, the filter
    effect runs at some clock value, or the user changes a control. *)
Inductive step : Dashboard -> Dashboard -> Prop :=
| step_fetch response msg st : step st (fetchConversations response msg st)
| step_delete response conversationId st :
    step st (deleteConversation response conversationId st)
| step_applyFilters Date_now st : step st (applyFilters Date_now st)
| step_clearFilters st : step st (clearFilters st)
| step_viewMode v st : step st (setViewMode v st)
| step_searchTerm s st : step st (setSearchTerm s st)
| step_statusFilter s st : step st (setStatusFilter s st)
| step_agentFilter s st : step st (setAgentFilter s st)
| step_successFilter s st : step st (setSuccessFilter s st)
| step_dateFilter s st : step st (setDateFilter s st).

(** The states the dashboard can be in. *)
Inductive reachable : Dashboard -> Prop :=
| reachable_initial : reachable initial
| reachable_step st st' : reachable st -> step st st' -> reachable st'.

(* ===================================================================== *)
(** ** Route handlers: requests, responses and the handler monad *)
(* ===================================================================== *)

(** [interface TranscriptTurn], with the two fields the routes read (their
    callbacks are annotated [turn: { role: string; message: string }]). *)
Record TranscriptTurn := mkTurn {
  role : string;
  message : string
}.

(** The generative-text provider's reply, as far as the handlers look into
    it.  Every level may be missing, which is what the optional chain
    [data.candidates?.[0]?.content?.parts?.[0]?.text] allows for. *)
Record Part := mkPart { text : option string }.
Record Content := mkContent { parts : option (list Part) }.
Record Candidate := mkCandidate { content : option Content }.
Record GeminiData := mkGeminiData { candidates : option (list Candidate) }.

Record GenerationConfig := mkGenerationConfig {
  temperature : Q;
  topK : Z;
  topP : Q;
  maxOutputTokens : Z
}.

Inductive Header :=
| content_type_json
| xi_api_key (key : string)
| authorization_basic (user password : string).

(** The body of an outbound request. *)
Inductive RequestBody :=
| no_body
| generate_content (prompt : string) (generationConfig : option GenerationConfig)
| transcript_json (transcript : option (list TranscriptTurn))
| form_data (fields : list (string * string)).

Record Request := mkRequest {
  url : string;
  method : string;
  headers : list Header;
  body : RequestBody
}.

(** The JSON bodies the handlers answer with. *)
Inductive ResponseJson :=
| error_json (error : string)
| answer_json (answer : string)
| summary_json (summary : string)
| analysis_json (analysis : option string)
| agenda_sent_json (summary recipient : string)
| fact_sent_json (spaceFact recipient : string).

(** [NextResponse.json(body, { status })]; the status defaults to 200. *)
Record Response := mkResponse {
  json : ResponseJson;
  http_status : Z
}.

(** What an awaited [fetch] produces for a handler: a rejection, or a
    response with [ok], [status] and its body, where [None] is a body on
    which [response.json()] rejects. *)
Inductive Upstream (A : Type) :=
| unreachable
| replied (ok : bool) (status : Z) (data : option A).
Arguments unreachable {A}.
Arguments replied {A} ok status data.

(** The services behind the handlers: each maps the request it receives to
    its reply. *)
Record Network := mkNetwork {
  gemini : Request -> Upstream GeminiData;
  conversation_api : Request -> Upstream (option (list TranscriptTurn));
  summary_api : Request -> Upstream (option string);
  mailgun : Request -> Upstream unit
}.

(** The process a handler runs in: [process.env], the network, and the two
    renderings of [new Date()] the e-mail bodies use. *)
Record Server := mkServer {
  env : gmap string string;
  net : Network;
  toLocaleDateString : string;
  toLocaleString : string
}.

Inductive Exn :=
| TypeError
| SyntaxError
| FetchError
| Error (msg : string).

Inductive Outcome (A : Type) :=
| Returned (a : A)
| Thrown (e : Exn).
Arguments Returned {A} a.
Arguments Thrown {A} e.

(** A handler computation: it extends the list of outbound requests made so
    far (oldest first) and returns or throws. *)
Definition M (A : Type) : Type := list Request -> Outcome A * list Request.

#[global] Instance M_ret : MRet M := fun A a sent => (Returned a, sent).

#[global] Instance M_bind : MBind M := fun A B f m sent =>
  match m sent with
  | (Returned a, sent') => f a sent'
  | (Thrown e, sent') => (Thrown e, sent')
  end.

Definition throw {A} (e : Exn) : M A := fun sent => (Thrown e, sent).

(** [try { body } catch (error) { handler }]. *)
Definition try_catch {A} (body : M A) (handler : Exn -> M A) : M A := fun sent =>
  match body sent with
  | (Returned a, sent') => (Returned a, sent')
  | (Thrown e, sent') => handler e sent'
  end.

(** [await fetch(..)] against one of the services. *)
Definition fetch {A} (service : Request -> Upstream A) (req : Request)
  : M (bool * Z * option A) := fun sent =>
  match service req with
  | unreachable => (Thrown FetchError, (sent ++ [req])%list)
  | replied ok status data => (Returned (ok, status, data), (sent ++ [req])%list)
  end.

(** [await response.json()]. *)
Definition response_json {A} (data : option A) : M A :=
  match data with
  | Some d => mret d
  | None => throw SyntaxError
  end.

(** Runs a handler from an empty log: its response and the requests it
    sent. *)
Definition run (handler : M Response) : Outcome Response * list Request :=
  handler [].

(** [process.env.NAME], where a missing and an empty value are both falsy. *)
Definition env_truthy (srv : Server) (name : string) : option string :=
  match env srv !! name with
  | Some v => if JsString.truthy v then Some v else None
  | None => None
  end.

(** [o || fallback] on an optional string. *)
Definition or_else (o : option string) (fallback : string) : string :=
  match o with
  | Some s => if JsString.truthy s then s else fallback
  | None => fallback
  end.

(** [data.candidates?.[0]?.content?.parts?.[0]?.text]. *)
Definition first_text_optional (data : GeminiData) : option string :=
  match candidates data with
  | Some (c :: _) =>
      match content c with
      | Some ct =>
          match parts ct with
          | Some (p :: _) => text p
          | _ => None
          end
      | None => None
      end
  | _ => None
  end.

(** [result.candidates[0].content.parts[0].text]: reading a member of
    [undefined] throws a [TypeError]; a missing [text] is [undefined]. *)
Definition first_text_strict (result : GeminiData) : M (option string) :=
  match candidates result with
  | Some (c :: _) =>
      match content c with
      | Some ct =>
          match parts ct with
          | Some (p :: _) => mret (text p)
          | _ => throw TypeError
          end
      | None => throw TypeError
      end
  | _ => throw TypeError
  end.

(** [transcript.map(turn => `${turn.role.toUpperCase()}: ${turn.message}`)
      .join('\n\n')]. *)
Definition formatTranscript (transcript : list TranscriptTurn) : string :=
  JsString.join (JsString.nl ++ JsString.nl)
    (map (fun turn => JsString.toUpperCase (role turn) ++ ": " ++ message turn)
       transcript).

Definition gemini_url (model apiKey : string) : string :=
  "https://generativelanguage.googleapis.com/v1beta/models/" ++ model
  ++ ":generateContent?key=" ++ apiKey.

(** [`${x}`] on a field that may be absent. *)
Definition interpolate (o : option string) : string :=
  match o with
  | Some s => s
  | None => "undefined"
  end.

(* ===================================================================== *)
(** ** [POST /api/analyze] *)
(* ===================================================================== *)

Module Analyze.

Record Body := mkBody {
  transcript : option (list TranscriptTurn);
  question : option string
}.

Definition prompt (formattedTranscript question : string) : string :=
"Based on the following conversation transcript, please answer the user's question accurately and concisely.

TRANSCRIPT:
" ++ formattedTranscript ++ "

QUESTION: " ++ question ++ "

Please provide a helpful answer based only on the information available in the transcript above.".

Definition generationConfig : GenerationConfig :=
  mkGenerationConfig 0.7%Q 40 0.95%Q 1024.

Definition provider_request (apiKey prompt : string) : Request :=
  mkRequest (gemini_url "gemini-1.5-flash-latest" apiKey) "POST"
    [content_type_json] (generate_content prompt (Some generationConfig)).

(** [request] is the decoded body, or [None] when [request.json()]
    rejects. *)
Definition POST (srv : Server) (request : option Body) : M Response :=
  try_catch
    (match env_truthy srv "GEMINI_API_KEY" with
     | None => mret (mkResponse (error_json "Gemini API key not configured") 500)
     | Some apiKey =>
         b ← response_json request;
         match transcript b, question b with
         | Some transcript, Some (String _ _ as question) =>
             let formattedTranscript := formatTranscript transcript in
             let prompt := prompt formattedTranscript question in
             '(ok, status, data) ← fetch (gemini (net srv)) (provider_request apiKey prompt);
             if negb ok
             then throw (Error ("Gemini API request failed: " ++ pretty status))
             else
               data ← response_json data;
               let answer := or_else (first_text_optional data) "No answer generated" in
               mret (mkResponse (answer_json answer) 200)
         | _, _ =>
             mret (mkResponse (error_json "Transcript and question are required") 400)
         end
     end)
    (fun _ => mret (mkResponse (error_json "Failed to analyze transcript") 500)).

End Analyze.

(* ===================================================================== *)
(** ** [POST /api/generate-summary] *)
(* ===================================================================== *)

Module GenerateSummary.

Record Body := mkBody {
  transcript : option (list TranscriptTurn)
}.

(** The prompt of [generate-summary/route.ts]. *)
Definition prompt (formattedTranscript : string) : string :=
"Based on the following conversation transcript, please generate exactly 3 main takeaways from this conversation. Format your response as a simple numbered list.

TRANSCRIPT:
" ++ formattedTranscript ++ "

Please provide exactly 3 main takeaways in this format:
1. [First main takeaway]
2. [Second main takeaway] 
3. [Third main takeaway]

Keep each takeaway concise but informative, focusing on the most important points, decisions, or insights from the conversation.".

(** The prompt of the other copy of the route, which differs in nothing
    else. *)
Definition prompt_sections (formattedTranscript : string) : string :=
"Based on the following conversation transcript, please analyze and structure the key insights into three specific categories. 

TRANSCRIPT:
" ++ formattedTranscript ++ "

Please provide your analysis in this exact format:

**Issue:** [Identify the main problem, challenge, or concern discussed in the conversation]

**Goal:** [Define the primary objective, desired outcome, or what needs to be achieved]

**Next Steps:** [Outline the specific actions, decisions, or follow-up items that should happen next]

Keep each section concise but actionable, focusing on the most important aspects from the conversation.".

Definition generationConfig : GenerationConfig :=
  mkGenerationConfig 0.7%Q 40 0.95%Q 512.

Definition provider_request (apiKey prompt : string) : Request :=
  mkRequest (gemini_url "gemini-1.5-flash-latest" apiKey) "POST"
    [content_type_json] (generate_content prompt (Some generationConfig)).

Definition POST_with (prompt : string -> string) (srv : Server)
    (request : option Body) : M Response :=
  try_catch
    (match env_truthy srv "GEMINI_API_KEY" with
     | None => mret (mkResponse (error_json "Gemini API key not configured") 500)
     | Some apiKey =>
         b ← response_json request;
         match transcript b with
         | None => mret (mkResponse (error_json "Transcript is required") 400)
         | Some transcript =>
             let formattedTranscript := formatTranscript transcript in
             let prompt := prompt formattedTranscript in
             '(ok, status, data) ← fetch (gemini (net srv)) (provider_request apiKey prompt);
             if negb ok
             then throw (Error ("Gemini API request failed: " ++ pretty status))
             else
               data ← response_json data;
               let summary := or_else (first_text_optional data) "No summary generated" in
               mret (mkResponse (summary_json summary) 200)
         end
     end)
    (fun _ => mret (mkResponse (error_json "Failed to generate summary") 500)).

Definition POST : Server -> option Body -> M Response := POST_with prompt.
Definition POST_sections : Server -> option Body -> M Response :=
  POST_with prompt_sections.

End GenerateSummary.

(* ===================================================================== *)
(** ** [POST /api/gemini-template] *)
(* ===================================================================== *)

Module GeminiTemplate.

Record Body := mkBody {
  discussionContent : option string
}.

Definition prompt (discussionContent : string) : string :=
"Please analyze and provide additional insights for this One-on-One Prep Discussion:

" ++ discussionContent ++ "

Provide detailed next steps, potential challenges, and recommendations for implementation. Format your response in a structured way with clear sections.".

Definition provider_request (apiKey discussionContent : string) : Request :=
  mkRequest (gemini_url "gemini-1.5-flash" apiKey) "POST"
    [content_type_json] (generate_content (prompt discussionContent) None).

Definition POST (srv : Server) (request : option Body) : M Response :=
  try_catch
    (b ← response_json request;
     match discussionContent b with
     | Some (String _ _ as discussionContent) =>
         match env_truthy srv "GEMINI_API_KEY" with
         | None => mret (mkResponse (error_json "Gemini API key not configured") 500)
         | Some apiKey =>
             '(ok, status, data) ← fetch (gemini (net srv))
                                     (provider_request apiKey discussionContent);
             if negb ok
             then throw (Error ("Gemini API error: " ++ pretty status))
             else
               result ← response_json data;
               geminiResponse ← first_text_strict result;
               mret (mkResponse (analysis_json geminiResponse) 200)
         end
     | _ => mret (mkResponse (error_json "Discussion content is required") 400)
     end)
    (fun _ => mret (mkResponse (error_json "Failed to generate template") 500)).

End GeminiTemplate.

(* ===================================================================== *)
(** ** [POST /api/space-fact-email] *)
(* ===================================================================== *)

(** The body the dashboards post: [{ conversationId, recipient }], either
    of which may be missing. *)
Record EmailBody := mkEmailBody {
  conversationId : option string;
  recipient : option string
}.

Definition mailgun_url : string :=
  "https://api.mailgun.net/v3/ai.complete.city/messages".

Module SashaEmail.

(** [process.env.NEXT_PUBLIC_BASE_URL || 'http://localhost:3000']. *)
Definition base_url (srv : Server) : string :=
  or_else (env srv !! "NEXT_PUBLIC_BASE_URL") "http://localhost:3000".

Definition emailBody (recipient : option string) (summary date : string) : string :=
"Dear " ++ interpolate recipient ++ ",

I hope this email finds you well! Here are some ideas that I wanted to share about talking to you in our meeting:

" ++ summary ++ "

Looking forward to our discussion!

Best regards,
Sasha

---
Meeting prep from conversation on " ++ date.

Definition conversation_request (srv : Server) (conversationId : option string) : Request :=
  mkRequest (base_url srv ++ "/api/conversations/" ++ interpolate conversationId)
    "GET" [] no_body.

Definition summary_request (srv : Server)
    (transcript : option (list TranscriptTurn)) : Request :=
  mkRequest (base_url srv ++ "/api/generate-summary") "POST"
    [content_type_json] (transcript_json transcript).

Definition mailgun_request (mailgunApiKey to text : string) : Request :=
  mkRequest mailgun_url "POST" [authorization_basic "api" mailgunApiKey]
    (form_data [ ("from", "Sasha <arihant@ai.complete.city>");
                 ("to", to);
                 ("subject", "Agenda for Our Upcoming Meeting");
                 ("text", text) ]).

Definition POST (srv : Server) (request : option EmailBody) : M Response :=
  try_catch
    (match env_truthy srv "GEMINI_API_KEY",
           env_truthy srv "MAILGUN_API_KEY",
           env_truthy srv "EMAIL_RECIPIENTS" with
     | Some geminiApiKey, Some mailgunApiKey, Some emailRecipient =>
         b ← response_json request;
         let conversationId := conversationId b in
         let recipient := recipient b in
         '(ok, _, conversationDetails) ←
           fetch (conversation_api (net srv)) (conversation_request srv conversationId);
         if negb ok
         then throw (Error "Failed to fetch conversation details")
         else
           transcript ← response_json conversationDetails;
           '(ok, status, summaryData) ←
             fetch (summary_api (net srv)) (summary_request srv transcript);
           if negb ok
           then throw (Error ("Summary generation failed: " ++ pretty status))
           else
             summaryData ← response_json summaryData;
             let summary :=
               or_else summaryData "Unable to generate meeting agenda at this time." in
             let emailBody := emailBody recipient summary (toLocaleDateString srv) in
             '(ok, status, _) ←
               fetch (mailgun (net srv))
                 (mailgun_request mailgunApiKey (or_else recipient emailRecipient)
                    emailBody);
             if negb ok
             then throw (Error ("Mailgun API request failed: " ++ pretty status))
             else
               mret (mkResponse
                       (agenda_sent_json summary (or_else recipient emailRecipient))
                       200)
     | _, _, _ =>
         mret (mkResponse
                 (error_json "Required API keys or email configuration not found")
                 500)
     end)
    (fun _ => mret (mkResponse (error_json "Failed to send meeting agenda email") 500)).

End SashaEmail.

Module MateiEmail.

Definition factPrompt : string :=
  "Generate a fascinating space fact in 2-3 sentences about black holes, galaxies, or space exploration. Make it engaging and educational.".

Definition generationConfig : GenerationConfig :=
  mkGenerationConfig 0.8%Q 40 0.95%Q 200.

Definition provider_request (geminiApiKey : string) : Request :=
  mkRequest (gemini_url "gemini-1.5-flash-latest" geminiApiKey) "POST"
    [content_type_json] (generate_content factPrompt (Some generationConfig)).

Definition emailBody (spaceFact : string) (conversationId : option string)
    (timestamp : string) : string :=
"Here's your fascinating space fact:

" ++ spaceFact ++ "

This email was triggered by a conversation interaction (ID: " ++ interpolate conversationId ++ ") at " ++ timestamp ++ ".

Sent with love from Arihant's automated system! 🚀".

Definition mailgun_request (mailgunApiKey to subject text : string) : Request :=
  mkRequest mailgun_url "POST" [authorization_basic "api" mailgunApiKey]
    (form_data [ ("from", "Arihant's Agent <arihant@ai.complete.city>");
                 ("to", to);
                 ("subject", subject);
                 ("text", text) ]).

Definition POST (srv : Server) (request : option EmailBody) : M Response :=
  try_catch
    (match env_truthy srv "GEMINI_API_KEY",
           env_truthy srv "MAILGUN_API_KEY",
           env_truthy srv "EMAIL_RECIPIENTS" with
     | Some geminiApiKey, Some mailgunApiKey, Some emailRecipient =>
         let emailSubject := env srv !! "EMAIL_SUBJECT" in
         b ← response_json request;
         let conversationId := conversationId b in
         '(ok, status, geminiData) ←
           fetch (gemini (net srv)) (provider_request geminiApiKey);
         if negb ok
         then throw (Error ("Gemini API request failed: " ++ pretty status))
         else
           geminiData ← response_json geminiData;
           let spaceFact :=
             or_else (first_text_optional geminiData)
               "The universe is vast and full of wonders!" in
           let timestamp := toLocaleString srv in
           let emailBody := emailBody spaceFact conversationId timestamp in
           '(ok, status, _) ←
             fetch (mailgun (net srv))
               (mailgun_request mailgunApiKey emailRecipient
                  (or_else emailSubject "🌌 Your Space Fact") emailBody);
           if negb ok
           then throw (Error ("Mailgun API request failed: " ++ pretty status))
           else mret (mkResponse (fact_sent_json spaceFact emailRecipient) 200)
     | _, _, _ =>
         mret (mkResponse
                 (error_json "Required API keys or email configuration not found")
                 500)
     end)
    (fun _ => mret (mkResponse (error_json "Failed to send space fact email") 500)).

End MateiEmail.

(* ===================================================================== *)
(** ** Predicates used in the statements *)
(* ===================================================================== *)

(** The inputs of [applyFilters] other than the clock: the conversation
    list and the six criteria. *)
Definition same_inputs (st1 st2 : Dashboard) : Prop :=
  conversations st1 = conversations st2
  /\ viewMode st1 = viewMode st2
  /\ searchTerm st1 = searchTerm st2
  /\ statusFilter st1 = statusFilter st2
  /\ agentFilter st1 = agentFilter st2
  /\ successFilter st1 = successFilter st2
  /\ dateFilter st1 = dateFilter st2.

(** The states in which [applyFilters] does not consult the clock's value:
    the single-latest view, and a date selector that is none of the three
    windows. *)
Definition clock_free (st : Dashboard) : Prop :=
  viewMode st = last
  \/ (dateFilter st <> "today" /\ dateFilter st <> "week" /\ dateFilter st <> "month").

(** [a] may stand in front of [b] in a list ordered by recency. *)
Definition not_older (a b : Conversation) : Prop :=
  (start_time_unix_secs b <= start_time_unix_secs a)%Q.

(** Ordered by start time, latest first. *)
Definition descending (l : list Conversation) : Prop := Sorted not_older l.

(** The number of elements of [l] whose identifier is [conversationId]. *)
Definition occurrences (conversationId : string) (l : list Conversation) : nat :=
  length (List.filter (fun conv => String.eqb (conversation_id conv) conversationId) l).

(** The search criterion in words: the term occurs in the text when upper
    and lower case are not told apart.  [letters] pairs each capital with
    its small letter. *)
Definition letters : list (ascii * ascii) :=
  combine (list_ascii_of_string "ABCDEFGHIJKLMNOPQRSTUVWXYZ")
    (list_ascii_of_string "abcdefghijklmnopqrstuvwxyz").

Definition same_letter (c d : ascii) : Prop :=
  c = d \/ In (c, d) letters \/ In (d, c) letters.

Definition same_letterb (c d : ascii) : bool :=
  Ascii.eqb c d
  || existsb (fun p => Ascii.eqb (fst p) c && Ascii.eqb (snd p) d) letters
  || existsb (fun p => Ascii.eqb (fst p) d && Ascii.eqb (snd p) c) letters.

Fixpoint equal_ignoring_case (a b : string) : Prop :=
  match a, b with
  | EmptyString, EmptyString => True
  | String c a', String d b' => same_letter c d /\ equal_ignoring_case a' b'
  | _, _ => False
  end.

Definition contains_ignoring_case (hay needle : string) : Prop :=
  exists pre mid post, hay = pre ++ mid ++ post /\ equal_ignoring_case mid needle.

(** The length in seconds of the window a date selector stands for, as
    [applyFilters] writes it. *)
Definition window_of (key : string) : option Q :=
  if String.eqb key "today" then Some (24 * 60 * 60)%Q
  else if String.eqb key "week" then Some (7 * 24 * 60 * 60)%Q
  else if String.eqb key "month" then Some (30 * 24 * 60 * 60)%Q
  else None.

(* ===================================================================== *)
(** ** Sample data *)
(* ===================================================================== *)

Definition conversation_at (id : string) (start : Q) : Conversation :=
  mkConversation "agent_1" "Support" id start 60 4 "done" "success" None
    (Some "Weekly sync") None.

(** A dashboard showing every conversation, with no filter set. *)
Definition showing_all (l : list Conversation) : Dashboard :=
  mkDashboard l l all false None "" "all" "all" "all" "all".


(** The transcript and the question of the answer-generation scenario. *)
Definition scenario_transcript : list TranscriptTurn :=
  [ mkTurn "user" "What is the deadline?"; mkTurn "agent" "Next Friday." ].

Definition scenario_question : string := "When is the deadline?".

(** A provider reply with a single candidate carrying the text [t]. *)
Definition single_candidate (t : string) : GeminiData :=
  mkGeminiData (Some [mkCandidate (Some (mkContent (Some [mkPart (Some t)])))]).

(** A provider reply whose candidate list is empty. *)
Definition no_candidate : GeminiData := mkGeminiData (Some []).

Definition sample_env : gmap string string :=
  list_to_map [ ("GEMINI_API_KEY", "gemini-key");
                ("MAILGUN_API_KEY", "mailgun-key");
                ("EMAIL_RECIPIENTS", "team@example.com") ].

(** A network on which every call succeeds and the provider answers
    [data]. *)
Definition healthy_network (data : GeminiData) : Network :=
  mkNetwork
    (fun _ => replied true 200 (Some data))
    (fun _ => replied true 200 (Some (Some scenario_transcript)))
    (fun _ => replied true 200 (Some (Some "1. The deadline is next Friday.")))
    (fun _ => replied true 200 (Some tt)).

Definition sample_server (data : GeminiData) : Server :=
  mkServer sample_env (healthy_network data) "11/2/2026" "11/2/2026, 9:00:00 AM".


(* ===================================================================== *)
(** ** The dashboard: agents, labels and the copied transcript *)
(* ===================================================================== *)

(** [new Set(xs)] spread back into an array: the distinct elements in the
    order of their first occurrence. *)
Definition Set_of (xs : list string) : list string :=
  fold_left (fun seen x => if existsb (String.eqb x) seen then seen else (seen ++ [x])%list)
    xs [].

Fixpoint insert_string (x : string) (l : list string) : list string :=
  match l with
  | [] => [x]
  | y :: l' => if String.leb x y then x :: l else y :: insert_string x l'
  end.

(** [agents.sort()]: the default order of strings, by character code. *)
Fixpoint sort_strings (l : list string) : list string :=
  match l with
  | [] => []
  | x :: l' => insert_string x (sort_strings l')
  end.

(** [getUniqueAgents]. *)
Definition getUniqueAgents (st : Dashboard) : list string :=
  let agents := Set_of (map agent_name (conversations st)) in
  sort_strings agents.


(** [s.padStart(2, '0')]. *)
Definition padStart2 (s : string) : string :=
  match String.length s with
  | O => "00"
  | S O => "0" ++ s
  | _ => s
  end.

(** [formatDuration] on a whole number of seconds: [Math.floor] of the
    quotient, and the remainder with the sign of the dividend.  The
    argument is a JavaScript number; the embedding covers the integers it
    holds exactly (magnitude below 2^53), on which the division, the
    remainder and the decimal printing are those of [Z]. *)
Definition formatDuration (seconds : Z) : string :=
  let mins := seconds / 60 in
  let secs := Z.rem seconds 60 in
  pretty mins ++ ":" ++ padStart2 (pretty secs).

(** The text [copyTranscript] puts on the clipboard.  Its separator is
    written ['\\n\\n'] in the source: two backslashes, each followed by
    the letter n. *)
Definition transcriptText (transcript : option (list TranscriptTurn)) : string :=
  let joined :=
    match transcript with
    | Some turns =>
        Some (JsString.join "\n\n"
                (map (fun turn => JsString.toUpperCase (role turn) ++ ": " ++ message turn)
                   turns))
    | None => None
    end in
  or_else joined "No transcript available".

(** The decimal digit character of a number below ten. *)
Definition digit (d : Z) : ascii := ascii_of_nat (48 + Z.to_nat d).

(** One line of a rendered transcript. *)
Definition turn_line (turn : TranscriptTurn) : string :=
  JsString.toUpperCase (role turn) ++ ": " ++ message turn.

(** A backslash followed by the letter n, twice. *)
Definition backslash_n_twice : string :=
  String (ascii_of_nat 92) (String "n" (String (ascii_of_nat 92) (String "n" ""))).

(* ===================================================================== *)
(** ** [GET] and [DELETE /api/conversations/{id}] *)
(* ===================================================================== *)

Module ConversationRoute.

(** The bodies the two handlers answer with.  [GET] hands on whatever the
    transcript provider sent, of whatever shape [A]. *)
Inductive Json (A : Type) :=
| data_json (data : A)
| success_json
| failed_json (error : string).
Arguments data_json {A} data.
Arguments success_json {A}.
Arguments failed_json {A} error.

Record Reply (A : Type) := mkReply {
  reply_json : Json A;
  reply_status : Z
}.
Arguments mkReply {A} reply_json reply_status.
Arguments reply_json {A} r.
Arguments reply_status {A} r.

Definition provider_url (id : string) : string :=
  "https://api.elevenlabs.io/v1/convai/conversations/" ++ id.

Definition provider_request (method apiKey id : string) : Request :=
  mkRequest (provider_url id) method [xi_api_key apiKey] no_body.

(** [elevenlabs] is the transcript provider; [id] is the route parameter. *)
Definition GET {A} (srv : Server) (elevenlabs : Request -> Upstream A) (id : string)
  : M (Reply A) :=
  try_catch
    (match env_truthy srv "ELEVENLABS_API_KEY" with
     | None => mret (mkReply (failed_json "ElevenLabs API key not configured") 500)
     | Some apiKey =>
         '(ok, status, data) ← fetch elevenlabs (provider_request "GET" apiKey id);
         if negb ok
         then throw (Error ("API request failed: " ++ pretty status))
         else
           data ← response_json data;
           mret (mkReply (data_json data) 200)
     end)
    (fun _ => mret (mkReply (failed_json "Failed to fetch conversation details") 500)).

Definition DELETE {A} (srv : Server) (elevenlabs : Request -> Upstream A) (id : string)
  : M (Reply A) :=
  try_catch
    (match env_truthy srv "ELEVENLABS_API_KEY" with
     | None => mret (mkReply (failed_json "ElevenLabs API key not configured") 500)
     | Some apiKey =>
         '(ok, status, _) ← fetch elevenlabs (provider_request "DELETE" apiKey id);
         if negb ok
         then throw (Error ("API request failed: " ++ pretty status))
         else mret (mkReply success_json 200)
     end)
    (fun _ => mret (mkReply (failed_json "Failed to delete conversation") 500)).

End ConversationRoute.

(** Runs a handler computation of any result type from an empty log. *)
Definition start {A} (handler : M A) : Outcome A * list Request := handler [].

(** A transcript provider that accepts every request and sends [data]. *)
Definition provider_sending {A} (data : A) : Request -> Upstream A :=
  fun _ => replied true 200 (Some data).

(** The shape every response of the five [POST] routes has: status 200
    with a body that is not an error, or status 400 or 500 with an error
    body. *)
Definition well_formed (r : Response) : Prop :=
  match json r with
  | error_json _ => http_status r = 400 \/ http_status r = 500
  | _ => http_status r = 200
  end.

(** A server configured for the transcript provider only. *)
Definition transcript_server : Server :=
  mkServer (list_to_map [("ELEVENLABS_API_KEY", "xi-key")])
    (healthy_network no_candidate) "11/2/2026" "11/2/2026, 9:00:00 AM".

(** An awaited call that did not produce a usable body: the promise
    rejected, the status was not ok, or the body could not be decoded. *)
Definition call_failed {A} (u : Upstream A) : Prop :=
  match u with
  | replied true _ (Some _) => False
  | _ => True
  end.

(** A server with an empty environment. *)
Definition unconfigured_server : Server :=
  mkServer (∅ : gmap string string) (healthy_network no_candidate)
    "11/2/2026" "11/2/2026, 9:00:00 AM".

(** A configured server whose text provider answers 503 to everything. *)
Definition provider_down_server : Server :=
  mkServer sample_env
    (mkNetwork
       (fun _ => replied false 503 None)
       (fun _ => replied true 200 (Some (Some scenario_transcript)))
       (fun _ => replied true 200 (Some (Some "1. The deadline is next Friday.")))
       (fun _ => replied true 200 (Some tt)))
    "11/2/2026" "11/2/2026, 9:00:00 AM".

(* ===================================================================== *)
(** ** The dashboard's calls to its own routes *)
(* ===================================================================== *)

(** A [fetch] of the dashboard, by route and decoded request body. *)
Inductive Call :=
| get_conversation (conversationId : string)
| post_analyze (transcript : option (list TranscriptTurn)) (question : string)
| post_generate_summary (transcript : option (list TranscriptTurn))
| post_space_fact_email (conversationId : string) (recipient : option string)
| post_gemini_template (discussionContent : string).

(** The fields the dashboard reads from a decoded response body; a field
    the body lacks is [None]. *)
Record ApiReply := mkApiReply {
  reply_transcript : option (list TranscriptTurn);
  reply_answer : option string;
  reply_summary : option string;
  reply_analysis : option string
}.

(** The routes as the dashboard sees them. *)
Definition Api : Type := Call -> Upstream ApiReply.

Module Client.

(** The computation inside a [try] block of the dashboard: it logs the
    calls it makes and returns or throws. *)
Definition M (A : Type) : Type := list Call -> Outcome A * list Call.

#[global] Instance M_ret : MRet M := fun A a sent => (Returned a, sent).

#[global] Instance M_bind : MBind M := fun A B f m sent =>
  match m sent with
  | (Returned a, sent') => f a sent'
  | (Thrown e, sent') => (Thrown e, sent')
  end.

Definition throw {A} (e : Exn) : M A := fun sent => (Thrown e, sent).

(** [await fetch(..)]. *)
Definition call (api : Api) (c : Call) : M (bool * option ApiReply) := fun sent =>
  match api c with
  | unreachable => (Thrown FetchError, (sent ++ [c])%list)
  | replied ok _ data => (Returned (ok, data), (sent ++ [c])%list)
  end.

(** [await response.json()]. *)
Definition json_of {A} (data : option A) : M A :=
  match data with
  | Some d => mret d
  | None => throw SyntaxError
  end.

(** The two calls the question, summary and preview flows share: the
    conversation is fetched, then its transcript is posted to [route]. *)
Definition with_transcript (api : Api) (conversationId : string)
    (failure : string) (route : option (list TranscriptTurn) -> Call) : M ApiReply :=
  '(ok, details) ← call api (get_conversation conversationId);
  if negb ok
  then throw (Error "Failed to fetch conversation details")
  else
    details ← json_of details;
    '(ok, reply) ← call api (route (reply_transcript details));
    if negb ok
    then throw (Error failure)
    else json_of reply.

End Client.

(* ===================================================================== *)
(** ** The per-conversation panel ([page.tsx]) *)
(* ===================================================================== *)

(** The state variables of [Dashboard()] behind the question box, the
    summaries and the e-mail dialog.  The keyed objects are maps from
    conversation identifiers, which are taken not to be names of
    [Object.prototype] members. *)
Record Panel := mkPanel {
  expandedQA : option string;
  questions : gmap string string;
  answers : gmap string string;
  loadingAnalysis : gmap string bool;
  loadingSummary : gmap string bool;
  geminiSummaries : gmap string string;
  emailModal : option (string * bool);
  emailRecipient : string;
  emailPreview : string;
  loadingEmailPreview : bool;
  copyStatus : option string
}.

Definition setExpandedQA (v : option string) (ui : Panel) : Panel :=
  mkPanel v (questions ui) (answers ui) (loadingAnalysis ui) (loadingSummary ui)
    (geminiSummaries ui) (emailModal ui) (emailRecipient ui) (emailPreview ui)
    (loadingEmailPreview ui) (copyStatus ui).

Definition setQuestions (v : gmap string string) (ui : Panel) : Panel :=
  mkPanel (expandedQA ui) v (answers ui) (loadingAnalysis ui) (loadingSummary ui)
    (geminiSummaries ui) (emailModal ui) (emailRecipient ui) (emailPreview ui)
    (loadingEmailPreview ui) (copyStatus ui).

Definition setAnswers (v : gmap string string) (ui : Panel) : Panel :=
  mkPanel (expandedQA ui) (questions ui) v (loadingAnalysis ui) (loadingSummary ui)
    (geminiSummaries ui) (emailModal ui) (emailRecipient ui) (emailPreview ui)
    (loadingEmailPreview ui) (copyStatus ui).

Definition setLoadingAnalysis (v : gmap string bool) (ui : Panel) : Panel :=
  mkPanel (expandedQA ui) (questions ui) (answers ui) v (loadingSummary ui)
    (geminiSummaries ui) (emailModal ui) (emailRecipient ui) (emailPreview ui)
    (loadingEmailPreview ui) (copyStatus ui).



Definition setEmailModal (v : option (string * bool)) (ui : Panel) : Panel :=
  mkPanel (expandedQA ui) (questions ui) (answers ui) (loadingAnalysis ui)
    (loadingSummary ui) (geminiSummaries ui) v (emailRecipient ui) (emailPreview ui)
    (loadingEmailPreview ui) (copyStatus ui).

Definition setEmailRecipient (v : string) (ui : Panel) : Panel :=
  mkPanel (expandedQA ui) (questions ui) (answers ui) (loadingAnalysis ui)
    (loadingSummary ui) (geminiSummaries ui) (emailModal ui) v (emailPreview ui)
    (loadingEmailPreview ui) (copyStatus ui).

Definition setEmailPreview (v : string) (ui : Panel) : Panel :=
  mkPanel (expandedQA ui) (questions ui) (answers ui) (loadingAnalysis ui)
    (loadingSummary ui) (geminiSummaries ui) (emailModal ui) (emailRecipient ui) v
    (loadingEmailPreview ui) (copyStatus ui).


Definition setCopyStatus (v : option string) (ui : Panel) : Panel :=
  mkPanel (expandedQA ui) (questions ui) (answers ui) (loadingAnalysis ui)
    (loadingSummary ui) (geminiSummaries ui) (emailModal ui) (emailRecipient ui)
    (emailPreview ui) (loadingEmailPreview ui) v.

(** The initial values passed to [useState]. *)
Definition initial_panel : Panel :=
  mkPanel None ∅ ∅ ∅ ∅ ∅ None "" "" false None.

(** [{ ...prev, [key]: value }] where [value] may be [undefined]: reading
    the key afterwards gives [undefined], as for a key that is not there. *)
Definition assign (key : string) (value : option string) (prev : gmap string string)
  : gmap string string :=
  match value with
  | Some v => <[key := v]> prev
  | None => delete key prev
  end.

(** The characters [trim] removes are the white space and the line
    terminators of ECMAScript.  Those of one byte: U+0009 to U+000D and
    U+0020. *)
Definition is_space (c : ascii) : bool :=
  let n := nat_of_ascii c in
  ((9 <=? n) && (n <=? 13))%nat || (n =? 32)%nat.

(** Of two bytes: U+00A0, encoded C2 A0. *)
Definition is_space2 (c1 c2 : ascii) : bool :=
  ((nat_of_ascii c1 =? 194) && (nat_of_ascii c2 =? 160))%nat.

(** Of three bytes: U+1680 (E1 9A 80); U+2000 to U+200A, U+2028, U+2029 and
    U+202F (E2 80 80 to 8A, A8, A9, AF); U+205F (E2 81 9F); U+3000
    (E3 80 80); U+FEFF (EF BB BF). *)
Definition is_space3 (c1 c2 c3 : ascii) : bool :=
  let n1 := nat_of_ascii c1 in
  let n2 := nat_of_ascii c2 in
  let n3 := nat_of_ascii c3 in
  ((n1 =? 225) && (n2 =? 154) && (n3 =? 128))%nat
  || ((n1 =? 226) && (n2 =? 128)
      && (((128 <=? n3) && (n3 <=? 138)) || (n3 =? 168) || (n3 =? 169) || (n3 =? 175)))%nat
  || ((n1 =? 226) && (n2 =? 129) && (n3 =? 159))%nat
  || ((n1 =? 227) && (n2 =? 128) && (n3 =? 128))%nat
  || ((n1 =? 239) && (n2 =? 187) && (n3 =? 191))%nat.

(** [!s.trim()]: nothing but white space. *)
Fixpoint blank (s : string) : bool :=
  match s with
  | EmptyString => true
  | String c1 s1 =>
      if is_space c1 then blank s1
      else
        match s1 with
        | EmptyString => false
        | String c2 s2 =>
            if is_space2 c1 c2 then blank s2
            else
              match s2 with
              | EmptyString => false
              | String c3 s3 => is_space3 c1 c2 c3 && blank s3
              end
        end
  end.



(** [toggleQA]. *)
Definition toggleQA (conversationId : string) (ui : Panel) : Panel :=
  setExpandedQA
    (if decide (expandedQA ui = Some conversationId) then None else Some conversationId)
    ui.

(** [openEmailModal]. *)
Definition openEmailModal (conversationId : string) (ui : Panel) : Panel :=
  setEmailModal (Some (conversationId, true)) ui.

Definition analysisError : string := "Error analyzing transcript. Please try again.".

(** [askQuestion]: the panel afterwards and the calls made. *)
Definition askQuestion (api : Api) (conversationId : string) (ui : Panel)
  : Panel * list Call :=
  match questions ui !! conversationId with
  | None => (ui, [])
  | Some question =>
      if blank question then (ui, [])
      else
        let ui := setLoadingAnalysis (<[conversationId := true]> (loadingAnalysis ui)) ui in
        let '(outcome, sent) :=
          (reply ← Client.with_transcript api conversationId "Failed to analyze transcript"
                     (fun transcript => post_analyze transcript question);
           mret (reply_answer reply)) [] in
        let ui :=
          match outcome with
          | Returned answer => setAnswers (assign conversationId answer (answers ui)) ui
          | Thrown _ => setAnswers (<[conversationId := analysisError]> (answers ui)) ui
          end in
        (setLoadingAnalysis (<[conversationId := false]> (loadingAnalysis ui)) ui, sent)
  end.





(** [confirmSendEmail].  The timer that clears [copyStatus] two seconds
    later is not part of it. *)
Definition confirmSendEmail (api : Api) (conversationId : string) (ui : Panel)
  : Panel * list Call :=
  let '(outcome, sent) :=
    Client.call api (post_space_fact_email conversationId (Some (emailRecipient ui))) [] in
  match outcome with
  | Returned (true, _) =>
      (setCopyStatus (Some conversationId)
         (setEmailPreview "" (setEmailRecipient "" (setEmailModal None ui))),
       sent)
  | _ => (ui, sent)
  end.

(** [sendSpaceFactEmail] of the other dashboard, which posts no
    recipient. *)
Definition sendSpaceFactEmail (api : Api) (conversationId : string) (ui : Panel)
  : Panel * list Call :=
  let '(outcome, sent) :=
    Client.call api (post_space_fact_email conversationId None) [] in
  match outcome with
  | Returned (true, _) => (setCopyStatus (Some conversationId) ui, sent)
  | _ => (ui, sent)
  end.



(** A set of routes on which every call succeeds. *)
Definition sample_api : Api := fun c =>
  replied true 200
    (Some (mkApiReply (Some scenario_transcript) (Some "Next Friday.")
             (Some "1. The deadline is next Friday.") (Some "Next steps: confirm."))).

(** A set of routes that answer 500 to everything. *)
Definition failing_api : Api := fun c => replied false 500 None.

(** A panel in which a question has been typed for conversation [id]. *)
Definition asking (id question : string) : Panel :=
  setQuestions (<[id := question]> ∅) initial_panel.

(* ===================================================================== *)
(** ** The routes behind the dashboard *)
(* ===================================================================== *)

(** [response.ok]: the status is in the range 200-299. *)
Definition ok_status (status : Z) : bool := (200 <=? status) && (status <=? 299).

Definition no_reply : ApiReply := mkApiReply None None None None.

(** The fields of a route's JSON body, as the dashboard destructures
    them. *)
Definition reply_of_json (j : ResponseJson) : ApiReply :=
  match j with
  | answer_json answer => mkApiReply None (Some answer) None None
  | summary_json summary => mkApiReply None None (Some summary) None
  | analysis_json analysis => mkApiReply None None None analysis
  | agenda_sent_json summary _ => mkApiReply None None (Some summary) None
  | error_json _ | fact_sent_json _ _ => no_reply
  end.

Definition reply_of_conversation
    (j : ConversationRoute.Json (option (list TranscriptTurn))) : ApiReply :=
  match j with
  | ConversationRoute.data_json transcript => mkApiReply transcript None None None
  | _ => no_reply
  end.

(** What the dashboard receives when a handler has run; a handler that
    throws is answered for by the framework with a bare 500. *)
Definition respond {A} (status_of : A -> Z) (decode : A -> ApiReply)
    (o : Outcome A) : Upstream ApiReply :=
  match o with
  | Returned r => replied (ok_status (status_of r)) (status_of r) (Some (decode r))
  | Thrown _ => replied false 500 None
  end.

(** The sasha dashboard's routes, served by the handlers on [srv] with
    [elevenlabs] as transcript provider, whose data is the conversation's
    transcript. *)
Definition serve (srv : Server)
    (elevenlabs : Request -> Upstream (option (list TranscriptTurn))) : Api :=
  fun c =>
    match c with
    | get_conversation id =>
        respond ConversationRoute.reply_status
          (fun r => reply_of_conversation (ConversationRoute.reply_json r))
          (fst (start (ConversationRoute.GET srv elevenlabs id)))
    | post_analyze transcript question =>
        respond http_status (fun r => reply_of_json (json r))
          (fst (run (Analyze.POST srv (Some (Analyze.mkBody transcript (Some question))))))
    | post_generate_summary transcript =>
        respond http_status (fun r => reply_of_json (json r))
          (fst (run (GenerateSummary.POST srv (Some (GenerateSummary.mkBody transcript)))))
    | post_space_fact_email id recipient =>
        respond http_status (fun r => reply_of_json (json r))
          (fst (run (SashaEmail.POST srv (Some (mkEmailBody (Some id) recipient)))))
    | post_gemini_template discussionContent =>
        respond http_status (fun r => reply_of_json (json r))
          (fst (run (GeminiTemplate.POST srv
                       (Some (GeminiTemplate.mkBody (Some discussionContent))))))
    end.

(** A fully configured server. *)
Definition full_server (data : GeminiData) : Server :=
  mkServer
    (list_to_map [ ("GEMINI_API_KEY", "gemini-key");
                   ("ELEVENLABS_API_KEY", "xi-key");
                   ("MAILGUN_API_KEY", "mailgun-key");
                   ("EMAIL_RECIPIENTS", "team@example.com") ])
    (healthy_network data) "11/2/2026" "11/2/2026, 9:00:00 AM".
(* ===================================================================== *)
(** ** Properties of the filter engine *)
(* ===================================================================== *)

Lemma cutoff_of_other (now : Q) (key : string) :
  key <> "today" -> key <> "week" -> key <> "month" ->
  cutoff_of now key =
    if existsb (String.eqb key) Object_prototype_keys
    then cutoff_inherited else cutoff_undefined.
Proof.
  intros Ht Hw Hm. unfold cutoff_of.
  apply String.eqb_neq in Ht, Hw, Hm. now rewrite Ht, Hw, Hm.
Qed.

(** C8 — Filter identity: in view mode 'all', with an empty search term and
    the status, agent, success and date selectors all 'all', [applyFilters]
    leaves exactly the conversation list, in the order given. *)
Theorem applyFilters_identity (Date_now : Z) (st : Dashboard) :
  viewMode st = all ->
  searchTerm st = "" ->
  statusFilter st = "all" ->
  agentFilter st = "all" ->
  successFilter st = "all" ->
  dateFilter st = "all" ->
  filteredConversations (applyFilters Date_now st) = conversations st.
Proof.
  intros Hv Hs Hst Ha Hsu Hd. unfold applyFilters.
  rewrite Hv, Hs, Hst, Ha, Hsu, Hd. reflexivity.
Qed.

Lemma applyFilters_identity_witness :
  filteredConversations
    (applyFilters 1700000000000
       (showing_all [conversation_at "c2" 20; conversation_at "c1" 10]))
  = [conversation_at "c2" 20; conversation_at "c1" 10].
Proof. apply (applyFilters_identity 1700000000000); reflexivity. Defined.

(** C1 (as stated, refuted) — the same list and the same criteria, read at
    two different clock values, give two different filtered lists. *)
Lemma applyFilters_clock_counterexample :
  let st := setDateFilter "today" (showing_all [conversation_at "c1" 1700000000]) in
  same_inputs st st
  /\ filteredConversations (applyFilters 1700000001000 st)
     <> filteredConversations (applyFilters 1800000000000 st).
Proof.
  split.
  - repeat split.
  - vm_compute. discriminate.
Qed.

(** C1 (amended) — [applyFilters] is a function of the conversation list,
    the six criteria and the clock only: two invocations that agree on the
    list and the criteria produce the same filtered list when they read the
    same clock value, and also at different clock values when the view mode
    is 'last' or the date selector is none of 'today', 'week', 'month'. *)
Theorem applyFilters_deterministic (now1 now2 : Z) (st1 st2 : Dashboard) :
  same_inputs st1 st2 ->
  now1 = now2 \/ clock_free st1 ->
  filteredConversations (applyFilters now1 st1)
  = filteredConversations (applyFilters now2 st2).
Proof.
  intros (Hc & Hv & Hs & Hst & Ha & Hsu & Hd) Hclock.
  unfold applyFilters; cbn [filteredConversations setFilteredConversations].
  rewrite <- Hc, <- Hv, <- Hs, <- Hst, <- Ha, <- Hsu, <- Hd.
  destruct Hclock as [-> | [Hlast | (Ht & Hw & Hm)]]; [reflexivity | |].
  - now rewrite Hlast.
  - destruct (viewMode st1); [reflexivity |].
    now rewrite !(cutoff_of_other _ _ Ht Hw Hm).
Qed.

Lemma applyFilters_deterministic_witness :
  filteredConversations
    (applyFilters 1700000001000 (showing_all [conversation_at "c1" 1700000000]))
  = filteredConversations
      (applyFilters 1800000000000
         (setFilteredConversations [] (showing_all [conversation_at "c1" 1700000000]))).
Proof.
  apply applyFilters_deterministic.
  - repeat split.
  - right; right. repeat split; discriminate.
Defined.

(* ===================================================================== *)
(** ** The stored list is ordered by recency *)
(* ===================================================================== *)

Section Recency.

Local Open Scope Q_scope.

Lemma not_older_trans : Relations_1.Transitive not_older.
Proof. intros a b c Hab Hbc. unfold not_older in *. lra. Qed.

Lemma stays_before_spec (a b : Conversation) :
  stays_before a b = true <-> not_older a b.
Proof. apply Qle_bool_iff. Qed.

Lemma stays_before_false (a b : Conversation) :
  stays_before a b = false -> not_older b a.
Proof.
  intros H. unfold not_older.
  destruct (Qlt_le_dec (start_time_unix_secs a) (start_time_unix_secs b)) as [Hlt | Hle].
  - lra.
  - apply stays_before_spec in Hle. congruence.
Qed.

Lemma insert_sorted_HdRel (a b : Conversation) (l : list Conversation) :
  not_older b a -> HdRel not_older b l -> HdRel not_older b (insert_sorted a l).
Proof.
  intros Hba Hl. destruct l as [| c l]; cbn.
  - now constructor.
  - destruct (stays_before a c); constructor; [assumption |].
    now inversion Hl.
Qed.

Lemma insert_sorted_descending (a : Conversation) (l : list Conversation) :
  descending l -> descending (insert_sorted a l).
Proof.
  unfold descending. induction 1 as [| b l Hl IH Hb]; cbn.
  - repeat constructor.
  - destruct (stays_before a b) eqn:E.
    + constructor; [now constructor |].
      constructor. now apply stays_before_spec.
    + constructor; [assumption |].
      apply insert_sorted_HdRel; [now apply stays_before_false | assumption].
Qed.

Lemma sort_conversations_descending (l : list Conversation) :
  descending (sort_conversations l).
Proof.
  induction l as [| a l IH]; cbn.
  - constructor.
  - now apply insert_sorted_descending.
Qed.

Lemma insert_sorted_Permutation (a : Conversation) (l : list Conversation) :
  Permutation (a :: l) (insert_sorted a l).
Proof.
  induction l as [| b l IH]; cbn; [reflexivity |].
  destruct (stays_before a b); [reflexivity |].
  rewrite perm_swap. now constructor.
Qed.

Lemma sort_conversations_Permutation (l : list Conversation) :
  Permutation l (sort_conversations l).
Proof.
  induction l as [| a l IH]; cbn; [constructor |].
  rewrite <- insert_sorted_Permutation. now constructor.
Qed.

Lemma filter_descending (f : Conversation -> bool) (l : list Conversation) :
  descending l -> descending (List.filter f l).
Proof.
  unfold descending. intros H.
  apply StronglySorted_Sorted. apply Sorted_StronglySorted in H; [| exact not_older_trans].
  induction H as [| a l Hl IH Ha]; cbn; [constructor |].
  destruct (f a); [| assumption].
  constructor; [assumption |].
  apply List.Forall_forall. intros c Hc. apply filter_In in Hc as [Hc _].
  revert c Hc. now apply List.Forall_forall.
Qed.

(** The head of a list ordered by recency has the greatest start time. *)
Lemma descending_head_latest (c : Conversation) (l : list Conversation) :
  descending (c :: l) ->
  forall c', In c' (c :: l) -> start_time_unix_secs c' <= start_time_unix_secs c.
Proof.
  intros H c' [<- | Hin]; [lra |].
  apply Sorted_StronglySorted in H; [| exact not_older_trans].
  inversion H as [| ? ? _ Hall]; subst.
  revert c' Hin. now apply List.Forall_forall.
Qed.

Lemma step_descending (st st' : Dashboard) :
  step st st' -> descending (conversations st) -> descending (conversations st').
Proof.
  intros Hstep Hd. destruct Hstep; try exact Hd.
  - destruct response as [| [|] data]; cbn; try exact Hd.
    apply sort_conversations_descending.
  - destruct response as [| [|] data]; cbn; try exact Hd.
    now apply filter_descending.
Qed.

(** Whatever the dashboard has done, its conversation list is ordered by
    recency: [fetchConversations] sorts it and nothing reorders it. *)
Lemma reachable_descending (st : Dashboard) :
  reachable st -> descending (conversations st).
Proof.
  induction 1 as [| st st' _ IH Hstep].
  - constructor.
  - now apply (step_descending st).
Qed.

End Recency.

(** C2 — in view mode 'last', in every state the dashboard reaches (and on
    any conversation list ordered by start time descending, as
    [fetchConversations] stores it), the filter returns at most one
    element: nothing for an empty list, otherwise the element of the list
    with the maximum start time; the other criteria and the clock are
    ignored. *)
Theorem applyFilters_last (Date_now : Z) (st : Dashboard) :
  viewMode st = last ->
  reachable st \/ descending (conversations st) ->
  let shown := filteredConversations (applyFilters Date_now st) in
  (length shown <= 1)%nat
  /\ (conversations st = [] -> shown = [])
  /\ (conversations st <> [] ->
      exists c, shown = [c] /\ In c (conversations st)
        /\ forall c', In c' (conversations st) ->
             (start_time_unix_secs c' <= start_time_unix_secs c)%Q)
  /\ (forall now' st',
        viewMode st' = last -> conversations st' = conversations st ->
        filteredConversations (applyFilters now' st') = shown).
Proof.
  intros Hv Hd shown. subst shown.
  assert (Hsorted : descending (conversations st))
    by (destruct Hd as [Hd | Hd]; [now apply reachable_descending | exact Hd]).
  clear Hd. rename Hsorted into Hd. unfold applyFilters.
  cbn [filteredConversations setFilteredConversations]. rewrite Hv.
  split; [| split; [| split]].
  - destruct (conversations st); cbn; lia.
  - now intros ->.
  - intros Hne. destruct (conversations st) as [| c l] eqn:E; [congruence |].
    exists c. split; [reflexivity |]. split; [now left |].
    intros c' Hin. now apply (descending_head_latest c l).
  - intros now' st' Hv' Hc. now rewrite Hv', Hc.
Qed.

Lemma applyFilters_last_witness :
  let c1 := conversation_at "c1" 10 in
  let c2 := conversation_at "c2" 20 in
  let st := fetchConversations (Resolved true [c1; c2]) "" initial in
  exists c,
    filteredConversations (applyFilters 1700000000000 st) = [c]
    /\ In c (conversations st)
    /\ forall c', In c' (conversations st) ->
         (start_time_unix_secs c' <= start_time_unix_secs c)%Q.
Proof.
  cbv zeta.
  apply (applyFilters_last 1700000000000
           (fetchConversations
              (Resolved true [conversation_at "c1" 10; conversation_at "c2" 20])
              "" initial) eq_refl).
  - left. eapply reachable_step; [apply reachable_initial | apply step_fetch].
  - discriminate.
Defined.

(* ===================================================================== *)
(** ** Deleting a conversation *)
(* ===================================================================== *)

Section Without.

Variable conversationId : string.

Lemma without_In (c : Conversation) (l : list Conversation) :
  In c (without conversationId l)
  <-> In c l /\ conversation_id c <> conversationId.
Proof.
  unfold without. rewrite filter_In, negb_true_iff, String.eqb_neq. tauto.
Qed.

Lemma without_absent (l : list Conversation) :
  (forall c, In c l -> conversation_id c <> conversationId) ->
  without conversationId l = l.
Proof.
  induction l as [| a l IH]; intros H; cbn; [reflexivity |].
  destruct (String.eqb_spec (conversation_id a) conversationId) as [E | _]; cbn.
  - exfalso. apply (H a); [now left | exact E].
  - f_equal. apply IH. intros c Hc. apply H. now right.
Qed.

Lemma without_app (l1 l2 : list Conversation) :
  without conversationId (l1 ++ l2)
  = (without conversationId l1 ++ without conversationId l2)%list.
Proof. apply List.filter_app. Qed.

Lemma without_once (l1 l2 : list Conversation) (c : Conversation) :
  conversation_id c = conversationId ->
  (forall c', In c' (l1 ++ l2)%list -> conversation_id c' <> conversationId) ->
  without conversationId (l1 ++ c :: l2) = (l1 ++ l2)%list.
Proof.
  intros Hc Hrest. rewrite without_app.
  assert (Hskip : without conversationId (c :: l2) = without conversationId l2).
  { unfold without. cbn. apply String.eqb_eq in Hc. now rewrite Hc. }
  rewrite Hskip, <- without_app. now apply without_absent.
Qed.

Lemma without_sublist (l : list Conversation) :
  sublist (without conversationId l) l.
Proof.
  induction l as [| a l IH]; cbn; [constructor |].
  destruct (negb _); now constructor.
Qed.

Lemma without_length (l : list Conversation) :
  length l = (length (without conversationId l) + occurrences conversationId l)%nat.
Proof.
  unfold occurrences, without. induction l as [| a l IH]; cbn; [reflexivity |].
  destruct (String.eqb (conversation_id a) conversationId); cbn; lia.
Qed.

End Without.

Lemma distinct_ids_elsewhere (l1 l2 : list Conversation) (c : Conversation) :
  List.NoDup (map conversation_id (l1 ++ c :: l2)) ->
  forall c', In c' (l1 ++ l2)%list -> conversation_id c' <> conversation_id c.
Proof.
  intros Hnd c' Hin E. rewrite map_app in Hnd. cbn [map] in Hnd.
  apply List.NoDup_remove_2 in Hnd. apply Hnd.
  rewrite <- map_app, <- E. now apply in_map.
Qed.

(** C3 — on a list whose conversation ids are pairwise distinct, a
    successful delete of identifier X removes exactly one element, the one
    whose conversation_id equals X, and leaves the relative order of the
    remaining elements unchanged; if no element has identifier X the list is
    unchanged.  This holds of the stored and of the displayed list. *)
Theorem deleteConversation_removes (conversationId : string) (st : Dashboard)
    (view : Dashboard -> list Conversation) :
  view = conversations \/ view = filteredConversations ->
  List.NoDup (map conversation_id (view st)) ->
  let st' := deleteConversation (Resolved true tt) conversationId st in
  (forall c,
      In c (view st) -> conversation_id c = conversationId ->
      exists l1 l2,
        view st = (l1 ++ c :: l2)%list
        /\ view st' = (l1 ++ l2)%list
        /\ length (view st) = S (length (view st')))
  /\ ((forall c, In c (view st) -> conversation_id c <> conversationId) ->
      view st' = view st)
  /\ sublist (view st') (view st)
  /\ (forall c, In c (view st') <-> In c (view st) /\ conversation_id c <> conversationId).
Proof.
  intros Hview Hnd st'.
  assert (Hst' : view st' = without conversationId (view st))
    by (destruct Hview as [-> | ->]; reflexivity).
  rewrite Hst'. split; [| split; [| split]].
  - intros c Hin Hc. apply in_split in Hin as (l1 & l2 & E).
    exists l1, l2. rewrite E in Hnd |- *.
    assert (Hw : without conversationId (l1 ++ c :: l2) = (l1 ++ l2)%list).
    { apply without_once; [exact Hc |]. rewrite <- Hc.
      now apply distinct_ids_elsewhere. }
    rewrite Hw. split; [reflexivity |]. split; [reflexivity |].
    rewrite !length_app. cbn. lia.
  - apply without_absent.
  - apply without_sublist.
  - intros c. apply without_In.
Qed.

Lemma deleteConversation_removes_witness :
  let l := [conversation_at "c3" 30; conversation_at "c2" 20; conversation_at "c1" 10] in
  let st' := deleteConversation (Resolved true tt) "c2" (showing_all l) in
  exists l1 l2,
    l = (l1 ++ conversation_at "c2" 20 :: l2)%list
    /\ conversations st' = (l1 ++ l2)%list
    /\ length l = S (length (conversations st')).
Proof.
  cbv zeta.
  apply (proj1 (deleteConversation_removes "c2"
                  (showing_all [conversation_at "c3" 30; conversation_at "c2" 20;
                                conversation_at "c1" 10])
                  conversations (or_introl eq_refl)
                  ltac:(repeat constructor; cbn; intuition discriminate))
           (conversation_at "c2" 20)).
  - right. left. reflexivity.
  - reflexivity.
Defined.

(** A delete that fails, or whose request is rejected, changes nothing. *)
Lemma deleteConversation_failed (conversationId : string) (st : Dashboard) :
  deleteConversation (Resolved false tt) conversationId st = st
  /\ deleteConversation Rejected conversationId st = st.
Proof. split; reflexivity. Qed.

(* ===================================================================== *)
(** ** The date-range filter *)
(* ===================================================================== *)

Section DateRange.

Local Open Scope Q_scope.

Lemma window_of_exact :
  (exists w, window_of "today" = Some w /\ w == 86400)
  /\ (exists w, window_of "week" = Some w /\ w == 7 * 86400)
  /\ (exists w, window_of "month" = Some w /\ w == 30 * 86400)
  /\ window_of "all" = None.
Proof.
  repeat split; try (eexists; split; [reflexivity | reflexivity]).
Qed.

Lemma cutoff_of_window (now w : Q) (key : string) :
  window_of key = Some w -> cutoff_of now key = cutoff_number (now - w).
Proof.
  unfold window_of, cutoff_of.
  destruct (String.eqb key "today"); [now intros [= <-] |].
  destruct (String.eqb key "week"); [now intros [= <-] |].
  destruct (String.eqb key "month"); [now intros [= <-] |].
  discriminate.
Qed.

Lemma window_of_not_all (key : string) (w : Q) :
  window_of key = Some w -> String.eqb key "all" = false.
Proof.
  intros H. apply String.eqb_neq. intros ->. discriminate.
Qed.

Variable Date_now : Z.
Variable st : Dashboard.
Variable w : Q.
Hypothesis view_all : viewMode st = all.
Hypothesis window : window_of (dateFilter st) = Some w.

(** What the other four criteria let through. *)
Let unbounded : list Conversation :=
  filteredConversations (applyFilters Date_now (setDateFilter "all" st)).

Lemma applyFilters_date_step :
  filteredConversations (applyFilters Date_now st)
  = if negb (Qeq_bool (now_secs Date_now - w) 0)
    then List.filter (fun conv => Qle_bool (now_secs Date_now - w)
                                    (start_time_unix_secs conv)) unbounded
    else unbounded.
Proof.
  subst unbounded. unfold applyFilters.
  cbn [filteredConversations setFilteredConversations setDateFilter
       viewMode conversations searchTerm statusFilter agentFilter
       successFilter dateFilter].
  rewrite view_all, (window_of_not_all _ _ window), (cutoff_of_window _ _ _ window).
  reflexivity.
Qed.


(** At that clock value [if (cutoff)] takes the zero cutoff for a missing
    one and the selector keeps everything. *)
Lemma applyFilters_zero_cutoff :
  now_secs Date_now == w ->
  filteredConversations (applyFilters Date_now st) = unbounded.
Proof.
  intros He. rewrite applyFilters_date_step.
  assert (E : Qeq_bool (now_secs Date_now - w) 0 = true)
    by (apply Qeq_bool_iff; lra).
  now rewrite E.
Qed.

End DateRange.

(** At an ordinary clock value the 'today' boundary is inclusive: the
    conversation that started exactly 86400 seconds ago is kept, the one
    that started a second earlier is dropped. *)
Lemma applyFilters_today_boundary :
  let kept := conversation_at "c2" (1700000000 - 86400) in
  let dropped := conversation_at "c1" (1700000000 - 86401) in
  filteredConversations
    (applyFilters 1700000000000 (setDateFilter "today" (showing_all [kept; dropped])))
  = [kept].
Proof. reflexivity. Qed.

(** What [applyFilters] displays in view mode 'all', criterion by
    criterion. *)
Lemma applyFilters_membership (Date_now : Z) (st : Dashboard) (c : Conversation) :
  viewMode st = all ->
  let cutoff := cutoff_of (now_secs Date_now) (dateFilter st) in
  In c (filteredConversations (applyFilters Date_now st))
  <-> In c (conversations st)
      /\ (searchTerm st = "" \/ matches_search (searchTerm st) c = true)
      /\ (statusFilter st = "all" \/ status c = statusFilter st)
      /\ (agentFilter st = "all" \/ agent_name c = agentFilter st)
      /\ (successFilter st = "all" \/ call_successful c = successFilter st)
      /\ (dateFilter st = "all" \/ cutoff_truthy cutoff = false
          \/ at_or_after cutoff c = true).
Proof.
  intros Hv cutoff. subst cutoff. unfold applyFilters.
  cbn [filteredConversations setFilteredConversations]. rewrite Hv. cbv zeta.
  assert (Hstage : forall (b : bool) f l,
             In c (if b then List.filter f l else l)
             <-> In c l /\ (b = false \/ f c = true)).
  { intros [] f l; [rewrite filter_In |]; intuition discriminate. }
  assert (Hdate : forall l,
             In c (if negb (String.eqb (dateFilter st) "all")
                   then if cutoff_truthy (cutoff_of (now_secs Date_now) (dateFilter st))
                        then List.filter
                               (at_or_after (cutoff_of (now_secs Date_now) (dateFilter st))) l
                        else l
                   else l)
             <-> In c l
                 /\ (dateFilter st = "all"
                     \/ cutoff_truthy (cutoff_of (now_secs Date_now) (dateFilter st)) = false
                     \/ at_or_after (cutoff_of (now_secs Date_now) (dateFilter st)) c = true)).
  { intros l. destruct (String.eqb_spec (dateFilter st) "all") as [E | E]; cbn [negb].
    - tauto.
    - rewrite Hstage. tauto. }
  rewrite Hdate, !Hstage, !negb_false_iff, !String.eqb_eq.
  assert (Hsearch : JsString.truthy (searchTerm st) = false <-> searchTerm st = "")
    by (destruct (searchTerm st); cbn; split; congruence).
  rewrite Hsearch. tauto.
Qed.



(* ===================================================================== *)
(** ** Strings *)
(* ===================================================================== *)

Section Strings.

Lemma append_nil_l (b : string) : "" ++ b = b.
Proof. reflexivity. Qed.

Lemma append_cons (x : ascii) (a b : string) : String x a ++ b = String x (a ++ b).
Proof. reflexivity. Qed.

Lemma append_nil_r (a : string) : a ++ "" = a.
Proof.
  induction a as [| x a IH]; [reflexivity |]. now rewrite append_cons, IH.
Qed.

Lemma append_assoc (a b c : string) : (a ++ b) ++ c = a ++ b ++ c.
Proof.
  induction a as [| x a IH]; [reflexivity |]. now rewrite !append_cons, IH.
Qed.

Lemma prefix_spec (needle hay : string) :
  String.prefix needle hay = true <-> exists post, hay = needle ++ post.
Proof.
  revert hay. induction needle as [| x needle IH]; intros hay.
  - split; [intros _; now exists hay | intros _; now destruct hay].
  - destruct hay as [| y hay]; cbn [String.prefix].
    + split; [discriminate | intros [post E]; discriminate].
    + destruct (Ascii.ascii_dec x y) as [-> | Hne].
      * rewrite IH. split; intros [post E]; exists post.
        -- rewrite append_cons. congruence.
        -- rewrite append_cons in E. congruence.
      * split; [discriminate | intros [post E]].
        rewrite append_cons in E. congruence.
Qed.

(** [includes] decides the substring relation. *)
Lemma includes_spec (hay needle : string) :
  JsString.includes hay needle = true
  <-> exists pre post, hay = pre ++ needle ++ post.
Proof.
  induction hay as [| y hay IH]; cbn [JsString.includes].
  - rewrite orb_false_r, prefix_spec. split.
    + intros [post E]. now exists "", post.
    + intros [[| x pre] [post E]]; [now exists post | discriminate].
  - rewrite orb_true_iff, prefix_spec, IH. split.
    + intros [[post E] | (pre & post & E)].
      * now exists "", post.
      * exists (String y pre), post. now rewrite append_cons, E.
    + intros [[| x pre] [post E]].
      * left. now exists post.
      * right. exists pre, post. rewrite append_cons in E. congruence.
Qed.

Lemma includes_in_context (pre hay post needle : string) :
  JsString.includes hay needle = true ->
  JsString.includes (pre ++ hay ++ post) needle = true.
Proof.
  rewrite !includes_spec. intros (p & q & ->).
  exists (pre ++ p), (q ++ post). now rewrite !append_assoc.
Qed.

Lemma includes_refl (s : string) : JsString.includes s s = true.
Proof.
  apply includes_spec. exists "", "". now rewrite append_nil_l, append_nil_r.
Qed.

Lemma includes_append_l (a b needle : string) :
  JsString.includes a needle = true -> JsString.includes (a ++ b) needle = true.
Proof. intros H. now apply (includes_in_context "" a b). Qed.

Lemma includes_append_r (a b needle : string) :
  JsString.includes b needle = true -> JsString.includes (a ++ b) needle = true.
Proof.
  intros H. apply (includes_in_context a b "") in H. now rewrite append_nil_r in H.
Qed.

Lemma join_includes (sep : string) (xs : list string) (x needle : string) :
  In x xs -> JsString.includes x needle = true ->
  JsString.includes (JsString.join sep xs) needle = true.
Proof.
  intros Hin Hx. induction xs as [| y l IH]; [destruct Hin |].
  cbn [JsString.join]. destruct Hin as [-> | Hin].
  - destruct l; [assumption | now apply includes_append_l].
  - destruct l as [| z l]; [destruct Hin |].
    apply includes_append_r, includes_append_r. now apply IH.
Qed.

(** Every turn's message appears verbatim in the formatted transcript. *)
Lemma formatTranscript_embeds (transcript : list TranscriptTurn) (turn : TranscriptTurn) :
  In turn transcript ->
  JsString.includes (formatTranscript transcript) (message turn) = true.
Proof.
  intros Hin. unfold formatTranscript.
  apply (join_includes _ _ (JsString.toUpperCase (role turn) ++ ": " ++ message turn)).
  - apply in_map_iff. now exists turn.
  - apply includes_append_r, includes_append_r, includes_refl.
Qed.

End Strings.

(* ===================================================================== *)
(** ** Route handlers *)
(* ===================================================================== *)

Lemma env_truthy_absent (srv : Server) (name : string) :
  env srv !! name = None -> env_truthy srv name = None.
Proof. intros H. unfold env_truthy. now rewrite H. Qed.

Lemma env_truthy_Some (srv : Server) (name v : string) :
  env_truthy srv name = Some v -> env srv !! name = Some v /\ v <> "".
Proof.
  unfold env_truthy. destruct (env srv !! name) as [[| x s] |]; try discriminate.
  intros [= <-]. split; [reflexivity | discriminate].
Qed.

Lemma or_else_text (o : option string) (fallback t : string) :
  o = Some t -> t <> "" -> or_else o fallback = t.
Proof. intros -> Ht. destruct t; [congruence | reflexivity]. Qed.

Lemma or_else_fallback (o : option string) (fallback : string) :
  o = None \/ o = Some "" -> or_else o fallback = fallback.
Proof. now intros [-> | ->]. Qed.

Lemma first_text_no_candidate (data : GeminiData) :
  candidates data = None \/ candidates data = Some [] ->
  first_text_optional data = None.
Proof. unfold first_text_optional. now intros [-> | ->]. Qed.

Ltac unfold_handler :=
  cbv [run try_catch mbind M_bind mret M_ret fetch throw response_json].

(** Splits on the innermost value a [match] of the goal inspects. *)
Ltac case_scrutinee :=
  match goal with
  | |- context [match ?x with _ => _ end] =>
      lazymatch x with
      | context [match _ with _ => _ end] => fail
      | _ => destruct x eqn:?
      end
  end.

(** C5 — the sasha e-mail route: when GEMINI_API_KEY, MAILGUN_API_KEY or
    EMAIL_RECIPIENTS is absent from the environment it answers 500 with
    'Required API keys or email configuration not found' and has sent no
    outbound request; when the request carries no recipient, every message
    it submits is addressed to the EMAIL_RECIPIENTS value, which is also the
    recipient of the success response, and whenever the conversation and
    summary calls succeed the third request it sends is the message, posted
    to the Mailgun endpoint with that value in its 'to' field. *)
Theorem SashaEmail_configuration_and_recipient (srv : Server) :
  (forall request,
      env srv !! "GEMINI_API_KEY" = None
      \/ env srv !! "MAILGUN_API_KEY" = None
      \/ env srv !! "EMAIL_RECIPIENTS" = None ->
      run (SashaEmail.POST srv request)
      = (Returned
           (mkResponse
              (error_json "Required API keys or email configuration not found") 500),
         []))
  /\ (forall b geminiApiKey mailgunApiKey emailRecipient,
        env_truthy srv "GEMINI_API_KEY" = Some geminiApiKey ->
        env_truthy srv "MAILGUN_API_KEY" = Some mailgunApiKey ->
        env_truthy srv "EMAIL_RECIPIENTS" = Some emailRecipient ->
        recipient b = None ->
        let result := run (SashaEmail.POST srv (Some b)) in
        (forall req fields to,
            In req (snd result) -> body req = form_data fields ->
            In ("to", to) fields -> to = emailRecipient)
        /\ (forall summary to,
              fst result = Returned (mkResponse (agenda_sent_json summary to) 200) ->
              to = emailRecipient)
        /\ (forall s1 s2 transcript summary,
              let base :=
                or_else (env srv !! "NEXT_PUBLIC_BASE_URL") "http://localhost:3000" in
              let details :=
                mkRequest (base ++ "/api/conversations/" ++ interpolate (conversationId b))
                  "GET" [] no_body in
              let summarise :=
                mkRequest (base ++ "/api/generate-summary") "POST"
                  [content_type_json] (transcript_json transcript) in
              conversation_api (net srv) details = replied true s1 (Some transcript) ->
              summary_api (net srv) summarise = replied true s2 (Some summary) ->
              snd result
              = [ details;
                  summarise;
                  mkRequest "https://api.mailgun.net/v3/ai.complete.city/messages" "POST"
                    [authorization_basic "api" mailgunApiKey]
                    (form_data
                       [ ("from", "Sasha <arihant@ai.complete.city>");
                         ("to", emailRecipient);
                         ("subject", "Agenda for Our Upcoming Meeting");
                         ("text",
                          SashaEmail.emailBody None
                            (or_else summary
                               "Unable to generate meeting agenda at this time.")
                            (toLocaleDateString srv)) ]) ])).
Proof.
  split.
  - intros request H. unfold SashaEmail.POST. unfold_handler.
    destruct H as [H | [H | H]]; apply env_truthy_absent in H; rewrite H.
    + reflexivity.
    + destruct (env_truthy srv "GEMINI_API_KEY"); reflexivity.
    + destruct (env_truthy srv "GEMINI_API_KEY"),
        (env_truthy srv "MAILGUN_API_KEY"); reflexivity.
  - intros b g m r Hg Hm Hr Hb result. subst result.
    unfold SashaEmail.POST. unfold_handler. rewrite Hg, Hm, Hr, Hb.
    split; [| split].
    + intros req fields to.
      repeat (case_scrutinee; cbn);
        intros Hin Hbody Hto;
        repeat (destruct Hin as [<- | Hin]; [try discriminate Hbody |]);
        try destruct Hin.
      all: injection Hbody as <-.
      all: destruct Hto as [E | [E | [E | [E | []]]]]; congruence.
    + intros summary to.
      repeat (case_scrutinee; cbn); intros [=]; congruence.
    + cbv [SashaEmail.conversation_request SashaEmail.summary_request
           SashaEmail.base_url SashaEmail.mailgun_request mailgun_url].
      intros s1 s2 transcript summary Hc Hs.
      rewrite Hc. cbn. rewrite Hs. cbn.
      case_scrutinee; [reflexivity |].
      destruct ok; reflexivity.
Qed.

Lemma SashaEmail_configuration_and_recipient_witness :
  run (SashaEmail.POST (mkServer ∅ (healthy_network no_candidate) "" "") None)
  = (Returned
       (mkResponse
          (error_json "Required API keys or email configuration not found") 500),
     [])
  /\ let srv := sample_server no_candidate in
     snd (run (SashaEmail.POST srv (Some (mkEmailBody (Some "conv_1") None))))
     = [ mkRequest "http://localhost:3000/api/conversations/conv_1" "GET" [] no_body;
         mkRequest "http://localhost:3000/api/generate-summary" "POST"
           [content_type_json] (transcript_json (Some scenario_transcript));
         mkRequest "https://api.mailgun.net/v3/ai.complete.city/messages" "POST"
           [authorization_basic "api" "mailgun-key"]
           (form_data
              [ ("from", "Sasha <arihant@ai.complete.city>");
                ("to", "team@example.com");
                ("subject", "Agenda for Our Upcoming Meeting");
                ("text",
                 SashaEmail.emailBody None "1. The deadline is next Friday."
                   "11/2/2026") ]) ].
Proof.
  split.
  - apply (proj1 (SashaEmail_configuration_and_recipient
                    (mkServer ∅ (healthy_network no_candidate) "" ""))).
    left. reflexivity.
  - cbv zeta.
    apply (proj2 (proj2
             (proj2 (SashaEmail_configuration_and_recipient (sample_server no_candidate))
                (mkEmailBody (Some "conv_1") None)
                "gemini-key" "mailgun-key" "team@example.com"
                ltac:(vm_compute; reflexivity) ltac:(vm_compute; reflexivity)
                ltac:(vm_compute; reflexivity) eq_refl))
           200 200 (Some scenario_transcript) (Some "1. The deadline is next Friday."));
      reflexivity.
Defined.

(** C6 (as stated, refuted) — when the provider's first candidate carries
    the empty text, the answer is the fallback string, not that text. *)
Lemma Analyze_empty_text_counterexample :
  let srv := sample_server (single_candidate "") in
  let request := Some (Analyze.mkBody (Some scenario_transcript) (Some scenario_question)) in
  first_text_optional (single_candidate "") = Some ""
  /\ fst (run (Analyze.POST srv request))
     = Returned (mkResponse (answer_json "No answer generated") 200).
Proof. cbv zeta. split; vm_compute; reflexivity. Qed.

(** C6 (amended) — for the transcript [user: What is the deadline?] /
    [agent: Next Friday.] and the question "When is the deadline?", the
    answer route sends the provider exactly one request: a POST to the
    generateContent endpoint of gemini-1.5-flash-latest whose body carries
    the prompt, and the prompt contains both messages verbatim (each behind
    its upper-cased role) and the question.  When the provider replies
    successfully the answer is the text of the first part of its first
    candidate if that text is not empty, and the literal "No answer
    generated" if there is no candidate, or the first candidate has no
    content, no part or no text, or the text is empty. *)
Theorem Analyze_scenario (srv : Server) (apiKey : string) :
  env_truthy srv "GEMINI_API_KEY" = Some apiKey ->
  let request := Some (Analyze.mkBody (Some scenario_transcript) (Some scenario_question)) in
  let prompt := Analyze.prompt (formatTranscript scenario_transcript) scenario_question in
  let sent :=
    mkRequest
      ("https://generativelanguage.googleapis.com/v1beta/models/gemini-1.5-flash-latest:generateContent?key="
       ++ apiKey)
      "POST" [content_type_json]
      (generate_content prompt (Some (mkGenerationConfig 0.7%Q 40 0.95%Q 1024))) in
  let result := run (Analyze.POST srv request) in
  let fallback := Returned (mkResponse (answer_json "No answer generated") 200) in
  JsString.includes prompt "What is the deadline?" = true
  /\ JsString.includes prompt "Next Friday." = true
  /\ JsString.includes prompt
       ("USER: What is the deadline?" ++ JsString.nl ++ JsString.nl
        ++ "AGENT: Next Friday.") = true
  /\ JsString.includes prompt "When is the deadline?" = true
  /\ snd result = [sent]
  /\ (forall status data,
        gemini (net srv) sent = replied true status (Some data) ->
        (forall c cs ct p ps t,
            candidates data = Some (c :: cs) -> content c = Some ct ->
            parts ct = Some (p :: ps) -> text p = Some t -> t <> "" ->
            fst result = Returned (mkResponse (answer_json t) 200))
        /\ (forall t, first_text_optional data = Some t -> t <> "" ->
                      fst result = Returned (mkResponse (answer_json t) 200))
        /\ (candidates data = None \/ candidates data = Some [] -> fst result = fallback)
        /\ (forall c cs,
              candidates data = Some (c :: cs) ->
              content c = None
              \/ (exists ct, content c = Some ct
                             /\ (parts ct = None \/ parts ct = Some []
                                 \/ exists p ps, parts ct = Some (p :: ps)
                                                  /\ (text p = None \/ text p = Some ""))) ->
              fst result = fallback)
        /\ (first_text_optional data = None \/ first_text_optional data = Some "" ->
            fst result = fallback)).
Proof.
  intros Hkey request prompt sent result fallback.
  assert (Hrun : result
                 = match gemini (net srv) sent with
                   | replied true _ (Some data) =>
                       (Returned (mkResponse
                                    (answer_json
                                       (or_else (first_text_optional data)
                                          "No answer generated")) 200), [sent])
                   | _ => (Returned (mkResponse
                                       (error_json "Failed to analyze transcript") 500),
                           [sent])
                   end).
  { subst result request. unfold Analyze.POST. unfold_handler. rewrite Hkey.
    cbn [Analyze.transcript Analyze.question scenario_question].
    fold scenario_question. fold prompt.
    change (Analyze.provider_request apiKey prompt) with sent.
    destruct (gemini (net srv) sent) as [| [|] status [data |]]; reflexivity. }
  split; [| split; [| split; [| split; [| split]]]].
  - vm_compute. reflexivity.
  - vm_compute. reflexivity.
  - vm_compute. reflexivity.
  - vm_compute. reflexivity.
  - rewrite Hrun. destruct (gemini (net srv) sent) as [| [|] status [data |]]; reflexivity.
  - intros status data Hreply. rewrite Hrun, Hreply. cbn [fst]. subst fallback.
    split; [| split; [| split; [| split]]].
    + intros c cs ct p ps t Hc Hct Hp Ht Hne.
      rewrite (or_else_text _ _ t); [reflexivity | | exact Hne].
      unfold first_text_optional. now rewrite Hc, Hct, Hp.
    + intros t Ht Hne. now rewrite (or_else_text _ _ t).
    + intros Hnone. now rewrite or_else_fallback; [| left; apply first_text_no_candidate].
    + intros c cs Hc Hmissing. rewrite or_else_fallback; [reflexivity |].
      unfold first_text_optional. rewrite Hc.
      destruct Hmissing as [-> | (ct & -> & [-> | [-> | (p & ps & -> & Ht)]])];
        auto.
    + intros Hnone. now rewrite or_else_fallback.
Qed.

Lemma Analyze_scenario_witness :
  let srv := sample_server (single_candidate "Next Friday.") in
  let request := Some (Analyze.mkBody (Some scenario_transcript) (Some scenario_question)) in
  fst (run (Analyze.POST srv request))
  = Returned (mkResponse (answer_json "Next Friday.") 200).
Proof.
  cbv zeta.
  destruct (Analyze_scenario (sample_server (single_candidate "Next Friday."))
              "gemini-key" ltac:(vm_compute; reflexivity))
    as (_ & _ & _ & _ & _ & Hreply).
  destruct (Hreply 200 (single_candidate "Next Friday.") eq_refl) as (Hfirst & _).
  apply (Hfirst _ _ _ _ _ _ eq_refl eq_refl eq_refl eq_refl). discriminate.
Defined.

(** For any transcript, the prompt of the answer route contains the message
    of each of its turns. *)
Lemma Analyze_prompt_embeds (transcript : list TranscriptTurn) (question : string)
    (turn : TranscriptTurn) :
  In turn transcript ->
  JsString.includes (Analyze.prompt (formatTranscript transcript) question)
    (message turn) = true.
Proof.
  intros Hin. unfold Analyze.prompt.
  apply includes_append_r, includes_append_l. now apply formatTranscript_embeds.
Qed.

(** C7 (as stated, refuted) — on an empty transcript, when the provider's
    first candidate carries the empty text, the summary is the fallback
    string, not that text. *)
Lemma GenerateSummary_empty_text_counterexample :
  let srv := sample_server (single_candidate "") in
  let request := Some (GenerateSummary.mkBody (Some [])) in
  first_text_optional (single_candidate "") = Some ""
  /\ fst (run (GenerateSummary.POST srv request))
     = Returned (mkResponse (summary_json "No summary generated") 200).
Proof. cbv zeta. split; vm_compute; reflexivity. Qed.

(** C7 (amended) — given an empty transcript array (and a configured API
    key), the summary route does not answer 400 'Transcript is required'
    and sends the provider exactly one request; when the provider replies
    successfully the summary is the text of its first candidate if that
    text is not empty, and the literal "No summary generated" if the
    candidate list is empty, or there is no text, or the text is empty.
    Both copies of the route, which differ in their prompt, behave so. *)
Theorem GenerateSummary_empty_transcript (prompt : string -> string)
    (srv : Server) (apiKey : string) :
  env_truthy srv "GEMINI_API_KEY" = Some apiKey ->
  let request := Some (GenerateSummary.mkBody (Some [])) in
  let sent := GenerateSummary.provider_request apiKey (prompt "") in
  let result := run (GenerateSummary.POST_with prompt srv request) in
  fst result <> Returned (mkResponse (error_json "Transcript is required") 400)
  /\ snd result = [sent]
  /\ (forall status data,
        gemini (net srv) sent = replied true status (Some data) ->
        (forall t, first_text_optional data = Some t -> t <> "" ->
                   fst result = Returned (mkResponse (summary_json t) 200))
        /\ (candidates data = None \/ candidates data = Some [] ->
            fst result = Returned (mkResponse (summary_json "No summary generated") 200))
        /\ (first_text_optional data = None \/ first_text_optional data = Some "" ->
            fst result = Returned (mkResponse (summary_json "No summary generated") 200))).
Proof.
  intros Hkey request sent result.
  assert (Hrun : result
                 = match gemini (net srv) sent with
                   | replied true _ (Some data) =>
                       (Returned (mkResponse
                                    (summary_json
                                       (or_else (first_text_optional data)
                                          "No summary generated")) 200), [sent])
                   | _ => (Returned (mkResponse
                                       (error_json "Failed to generate summary") 500),
                           [sent])
                   end).
  { subst result request. unfold GenerateSummary.POST_with. unfold_handler.
    rewrite Hkey. cbn [GenerateSummary.transcript].
    change (formatTranscript []) with "". fold sent.
    destruct (gemini (net srv) sent) as [| [|] status [data |]]; reflexivity. }
  split; [| split].
  - rewrite Hrun.
    destruct (gemini (net srv) sent) as [| [|] status [data |]]; discriminate.
  - rewrite Hrun.
    destruct (gemini (net srv) sent) as [| [|] status [data |]]; reflexivity.
  - intros status data Hreply. rewrite Hrun, Hreply. cbn [fst].
    split; [| split].
    + intros t Ht Hne. now rewrite (or_else_text _ _ t).
    + intros Hnone. now rewrite or_else_fallback; [| left; apply first_text_no_candidate].
    + intros Hnone. now rewrite or_else_fallback.
Qed.

Lemma GenerateSummary_empty_transcript_witness :
  let srv := sample_server no_candidate in
  let request := Some (GenerateSummary.mkBody (Some [])) in
  run (GenerateSummary.POST srv request)
  = (Returned (mkResponse (summary_json "No summary generated") 200),
     [GenerateSummary.provider_request "gemini-key" (GenerateSummary.prompt "")]).
Proof.
  cbv zeta.
  destruct (GenerateSummary_empty_transcript GenerateSummary.prompt
              (sample_server no_candidate) "gemini-key"
              ltac:(vm_compute; reflexivity))
    as (_ & Hsent & Hreply).
  destruct (Hreply 200 no_candidate eq_refl) as (_ & Hnone & _).
  specialize (Hnone (or_intror eq_refl)).
  unfold GenerateSummary.POST.
  destruct (run _) as [response sent]. cbn [fst snd] in *. now subst.
Defined.



(** C10 — when the provider replies successfully with an empty candidate
    list, the template route answers 500 'Failed to generate template',
    whereas the answer route and the summary route answer 200 with their
    fallback strings "No answer generated" and "No summary generated". *)
Theorem empty_candidate_list (srv : Server) (apiKey : string) :
  env_truthy srv "GEMINI_API_KEY" = Some apiKey ->
  (forall req, exists status, gemini (net srv) req = replied true status (Some no_candidate)) ->
  (forall discussionContent,
      discussionContent <> "" ->
      run (GeminiTemplate.POST srv (Some (GeminiTemplate.mkBody (Some discussionContent))))
      = (Returned (mkResponse (error_json "Failed to generate template") 500),
         [GeminiTemplate.provider_request apiKey discussionContent]))
  /\ (forall transcript question,
        question <> "" ->
        fst (run (Analyze.POST srv (Some (Analyze.mkBody (Some transcript) (Some question)))))
        = Returned (mkResponse (answer_json "No answer generated") 200))
  /\ (forall transcript,
        fst (run (GenerateSummary.POST srv (Some (GenerateSummary.mkBody (Some transcript)))))
        = Returned (mkResponse (summary_json "No summary generated") 200)
        /\ fst (run (GenerateSummary.POST_sections srv
                       (Some (GenerateSummary.mkBody (Some transcript)))))
           = Returned (mkResponse (summary_json "No summary generated") 200)).
Proof.
  intros Hkey Hprovider. split; [| split].
  - intros [| x s] Hne; [congruence |].
    unfold GeminiTemplate.POST. unfold_handler.
    cbn [GeminiTemplate.discussionContent]. rewrite Hkey.
    destruct (Hprovider (GeminiTemplate.provider_request apiKey (String x s)))
      as [status ->].
    reflexivity.
  - intros transcript [| x s] Hne; [congruence |].
    unfold Analyze.POST. unfold_handler.
    cbn [Analyze.transcript Analyze.question]. rewrite Hkey.
    match goal with
    | |- context [gemini (net srv) ?req] => destruct (Hprovider req) as [status ->]
    end.
    reflexivity.
  - intros transcript.
    unfold GenerateSummary.POST, GenerateSummary.POST_sections,
      GenerateSummary.POST_with.
    unfold_handler. cbn [GenerateSummary.transcript]. rewrite Hkey.
    split;
      match goal with
      | |- context [gemini (net srv) ?req] => destruct (Hprovider req) as [status ->]
      end; reflexivity.
Qed.

Lemma empty_candidate_list_witness :
  let srv := sample_server no_candidate in
  run (GeminiTemplate.POST srv (Some (GeminiTemplate.mkBody (Some "One-on-One Prep"))))
  = (Returned (mkResponse (error_json "Failed to generate template") 500),
     [GeminiTemplate.provider_request "gemini-key" "One-on-One Prep"]).
Proof.
  cbv zeta.
  apply (proj1 (empty_candidate_list (sample_server no_candidate) "gemini-key"
                  ltac:(vm_compute; reflexivity)
                  (fun _ => ex_intro _ 200 eq_refl))).
  discriminate.
Defined.

(* ===================================================================== *)
(** ** More on the filter engine *)
(* ===================================================================== *)

Section FilterStages.

Lemma filter_is_sublist (f : Conversation -> bool) (l : list Conversation) :
  sublist (List.filter f l) l.
Proof.
  induction l as [| a l IH]; cbn; [constructor |].
  destruct (f a); now constructor.
Qed.

Lemma stage_sublist (b : bool) (f : Conversation -> bool) (l : list Conversation) :
  sublist (if b then List.filter f l else l) l.
Proof. destruct b; [apply filter_is_sublist | reflexivity]. Qed.

Lemma stage_In (b : bool) (f : Conversation -> bool) (l : list Conversation)
    (c : Conversation) :
  In c (if b then List.filter f l else l) <-> In c l /\ (b = false \/ f c = true).
Proof.
  destruct b; [rewrite filter_In |]; intuition discriminate.
Qed.

Lemma filter_comm (f g : Conversation -> bool) (l : list Conversation) :
  List.filter f (List.filter g l) = List.filter g (List.filter f l).
Proof.
  induction l as [| a l IH]; cbn; [reflexivity |].
  destruct (f a) eqn:Ef, (g a) eqn:Eg; cbn; rewrite ?Ef, ?Eg, IH; reflexivity.
Qed.

Lemma stage_without (b : bool) (f : Conversation -> bool) (id : string)
    (l : list Conversation) :
  (if b then List.filter f (without id l) else without id l)
  = without id (if b then List.filter f l else l).
Proof. destruct b; [apply filter_comm | reflexivity]. Qed.

End FilterStages.

Lemma applyFilters_sublist_aux (Date_now : Z) (st : Dashboard) :
  sublist (filteredConversations (applyFilters Date_now st))
    (conversations (applyFilters Date_now st)).
Proof.
  unfold applyFilters.
  cbn [filteredConversations conversations setFilteredConversations].
  destruct (viewMode st).
  - destruct (conversations st) as [| c0 l]; [constructor |].
    constructor. apply sublist_nil_l.
  - cbv zeta.
    destruct (JsString.truthy (searchTerm st)),
      (negb (String.eqb (statusFilter st) "all")),
      (negb (String.eqb (agentFilter st) "all")),
      (negb (String.eqb (successFilter st) "all")),
      (negb (String.eqb (dateFilter st) "all")),
      (cutoff_truthy (cutoff_of (now_secs Date_now) (dateFilter st)));
      repeat (etransitivity; [apply filter_is_sublist |]); reflexivity.
Qed.

(** X1 — whatever the view mode, the criteria and the clock, the list
    [applyFilters] displays is a subsequence of the stored list: it shows
    stored conversations only, each at most as often as stored, in their
    stored order. *)
Theorem applyFilters_shows_sublist (Date_now : Z) (st : Dashboard) :
  sublist (filteredConversations (applyFilters Date_now st)) (conversations st).
Proof. exact (applyFilters_sublist_aux Date_now st). Qed.

Section IgnoringCase.

Lemma same_letterb_spec (c d : ascii) : same_letterb c d = true <-> same_letter c d.
Proof.
  unfold same_letterb, same_letter.
  rewrite !orb_true_iff, Ascii.eqb_eq, !existsb_exists.
  split.
  - intros [[H | ([x y] & Hin & H)] | ([x y] & Hin & H)]; auto;
      apply andb_true_iff in H as [Hx Hy]; apply Ascii.eqb_eq in Hx, Hy;
      cbn [fst snd] in Hx, Hy; subst; auto.
  - intros [H | [H | H]]; auto.
    + left. right. exists (c, d). cbn [fst snd]. now rewrite !Ascii.eqb_refl.
    + right. exists (d, c). cbn [fst snd]. now rewrite !Ascii.eqb_refl.
Qed.

Lemma lower_char_table :
  forallb (fun n =>
             forallb (fun m =>
                        Bool.eqb
                          (Ascii.eqb (JsString.lower_char (ascii_of_nat n))
                             (JsString.lower_char (ascii_of_nat m)))
                          (same_letterb (ascii_of_nat n) (ascii_of_nat m)))
               (seq 0 256))
    (seq 0 256) = true.
Proof. vm_compute. reflexivity. Qed.

Lemma lower_char_same_letter (c d : ascii) :
  JsString.lower_char c = JsString.lower_char d <-> same_letter c d.
Proof.
  rewrite <- same_letterb_spec, <- Ascii.eqb_eq.
  assert (Hc := nat_ascii_bounded c). assert (Hd := nat_ascii_bounded d).
  assert (Htable := lower_char_table).
  rewrite forallb_forall in Htable.
  specialize (Htable (nat_of_ascii c) ltac:(apply in_seq; lia)).
  rewrite forallb_forall in Htable.
  specialize (Htable (nat_of_ascii d) ltac:(apply in_seq; lia)).
  rewrite !ascii_nat_embedding in Htable.
  apply Bool.eqb_prop in Htable. now rewrite Htable.
Qed.

Lemma map_chars_app (f : ascii -> ascii) (a b : string) :
  JsString.map_chars f (a ++ b) = JsString.map_chars f a ++ JsString.map_chars f b.
Proof.
  induction a as [| x a IH]; [reflexivity |].
  rewrite append_cons. cbn [JsString.map_chars]. now rewrite IH, append_cons.
Qed.

Lemma map_chars_split (f : ascii -> ascii) (x y s : string) :
  JsString.map_chars f s = x ++ y ->
  exists a b, s = a ++ b /\ JsString.map_chars f a = x /\ JsString.map_chars f b = y.
Proof.
  revert s. induction x as [| c x IH]; intros s H.
  - exists "", s. now rewrite !append_nil_l in *.
  - rewrite append_cons in H. destruct s as [| c' s]; [discriminate |].
    cbn [JsString.map_chars] in H. injection H as Hc H.
    destruct (IH s H) as (a & b & -> & Ha & Hb).
    exists (String c' a), b. rewrite append_cons. cbn [JsString.map_chars].
    now rewrite Hc, Ha.
Qed.

Lemma toLowerCase_equal (a b : string) :
  JsString.toLowerCase a = JsString.toLowerCase b <-> equal_ignoring_case a b.
Proof.
  unfold JsString.toLowerCase. revert b.
  induction a as [| c a IH]; intros [| d b]; cbn [JsString.map_chars equal_ignoring_case];
    try (split; [discriminate | contradiction]).
  - tauto.
  - rewrite <- IH, <- lower_char_same_letter. split.
    + now intros [= -> ->].
    + now intros [-> ->].
Qed.

(** [hay.toLowerCase().includes(needle.toLowerCase())] finds the needle
    whatever the case of the letters. *)
Lemma includes_ignoring_case (hay needle : string) :
  JsString.includes (JsString.toLowerCase hay) (JsString.toLowerCase needle) = true
  <-> contains_ignoring_case hay needle.
Proof.
  rewrite includes_spec. unfold contains_ignoring_case. split.
  - intros (pre' & post' & H).
    apply map_chars_split in H as (pre & rest & -> & _ & H).
    apply map_chars_split in H as (mid & post & -> & H & _).
    exists pre, mid, post. split; [reflexivity |]. now apply toLowerCase_equal.
  - intros (pre & mid & post & -> & H). apply toLowerCase_equal in H.
    exists (JsString.toLowerCase pre), (JsString.toLowerCase post).
    unfold JsString.toLowerCase in *. now rewrite !map_chars_app, H.
Qed.

Lemma matches_search_ignoring_case (term : string) (c : Conversation) :
  matches_search term c = true
  <-> (exists title, call_summary_title c = Some title
                     /\ contains_ignoring_case title term)
      \/ contains_ignoring_case (agent_name c) term.
Proof.
  unfold matches_search. rewrite orb_true_iff, !includes_ignoring_case.
  destruct (call_summary_title c) as [title |].
  - rewrite includes_ignoring_case. split.
    + intros [H | H]; [left; now exists title | now right].
    + intros [(t & [= <-] & H) | H]; [now left | now right].
  - split.
    + intros [H | H]; [discriminate | now right].
    + intros [(t & [=] & _) | H]. now right.
Qed.

End IgnoringCase.

(** X2 — in view mode 'all' the criteria combine by conjunction: a
    conversation is displayed exactly when it is stored and passes every
    criterion that is switched on: a non-empty search term, which must occur
    in the title or in the agent name when upper and lower case are not told
    apart; a status, agent or success selector other than 'all', which must
    equal the conversation's value; a date selector whose cutoff is truthy.
    The search criterion is stated for a term, a title and an agent name of
    ASCII characters. *)
Theorem applyFilters_all_membership (Date_now : Z) (st : Dashboard) (c : Conversation) :
  viewMode st = all ->
  JsString.is_ascii (searchTerm st) = true ->
  JsString.is_ascii (agent_name c) = true ->
  (forall title, call_summary_title c = Some title -> JsString.is_ascii title = true) ->
  let cutoff := cutoff_of (now_secs Date_now) (dateFilter st) in
  In c (filteredConversations (applyFilters Date_now st))
  <-> In c (conversations st)
      /\ (searchTerm st = ""
          \/ (exists title, call_summary_title c = Some title
                            /\ contains_ignoring_case title (searchTerm st))
          \/ contains_ignoring_case (agent_name c) (searchTerm st))
      /\ (statusFilter st = "all" \/ status c = statusFilter st)
      /\ (agentFilter st = "all" \/ agent_name c = agentFilter st)
      /\ (successFilter st = "all" \/ call_successful c = successFilter st)
      /\ (dateFilter st = "all" \/ cutoff_truthy cutoff = false
          \/ at_or_after cutoff c = true).
Proof.
  intros Hv _ _ _ cutoff.
  rewrite (applyFilters_membership Date_now st c Hv). fold cutoff.
  rewrite matches_search_ignoring_case.
  split; intros (H1 & H2 & H3); (split; [exact H1 |]); (split; [| exact H3]);
    destruct H2 as [H2 | [H2 | H2]]; auto.
Qed.

Lemma applyFilters_all_membership_witness :
  let c := conversation_at "c1" 10 in
  In c (filteredConversations
          (applyFilters 1700000000000
             (setStatusFilter "done" (setSearchTerm "SYNC" (showing_all [c]))))).
Proof.
  cbv zeta.
  apply (proj2 (applyFilters_all_membership 1700000000000
                  (setStatusFilter "done"
                     (setSearchTerm "SYNC" (showing_all [conversation_at "c1" 10])))
                  (conversation_at "c1" 10) eq_refl eq_refl eq_refl
                  ltac:(intros title [= <-]; reflexivity))).
  split; [now left |].
  split.
  { right. left. exists "Weekly sync". split; [reflexivity |].
    exists "Weekly ", "sync", "". split; [reflexivity |].
    cbn [equal_ignoring_case]. unfold same_letter.
    repeat split; right; right; vm_compute;
      repeat first [left; reflexivity | right]. }
  split; [now right |].
  split; [now left |].
  split; [now left |].
  now left.
Defined.

(** X3 — in view mode 'all', deleting from an up-to-date display agrees with
    re-filtering: the list [deleteConversation] leaves on display is the
    list [applyFilters] computes from the shortened store at the same clock
    value. *)
Theorem deleteConversation_agrees_with_applyFilters (Date_now : Z)
    (conversationId : string) (st : Dashboard) :
  viewMode st = all ->
  filteredConversations st = filteredConversations (applyFilters Date_now st) ->
  let st' := deleteConversation (Resolved true tt) conversationId st in
  filteredConversations (applyFilters Date_now st') = filteredConversations st'.
Proof.
  intros Hv Hcurrent st'. subst st'.
  unfold applyFilters in *.
  cbn [deleteConversation filteredConversations setFilteredConversations
       setConversations conversations viewMode searchTerm statusFilter
       agentFilter successFilter dateFilter] in *.
  rewrite Hcurrent, Hv. cbv zeta.
  destruct (JsString.truthy (searchTerm st)),
    (negb (String.eqb (statusFilter st) "all")),
    (negb (String.eqb (agentFilter st) "all")),
    (negb (String.eqb (successFilter st) "all")),
    (negb (String.eqb (dateFilter st) "all")),
    (cutoff_truthy (cutoff_of (now_secs Date_now) (dateFilter st)));
    unfold without;
    repeat (rewrite (filter_comm _ (fun conv => negb (String.eqb (conversation_id conv) conversationId))));
    reflexivity.
Qed.

Lemma deleteConversation_agrees_with_applyFilters_witness :
  let st := setStatusFilter "done"
              (showing_all [conversation_at "c2" 20; conversation_at "c1" 10]) in
  let st' := deleteConversation (Resolved true tt) "c2" st in
  filteredConversations (applyFilters 1700000000000 st') = filteredConversations st'.
Proof.
  cbv zeta.
  apply (deleteConversation_agrees_with_applyFilters 1700000000000 "c2"
           (setStatusFilter "done"
              (showing_all [conversation_at "c2" 20; conversation_at "c1" 10])));
    reflexivity.
Defined.

(** X4 — in view mode 'last', deleting the conversation on display leaves
    the display empty, whereas re-filtering the shortened store shows the
    next conversation: the two updates of the displayed list disagree. *)
Theorem deleteConversation_last_shows_nothing (Date_now : Z) (st : Dashboard)
    (c0 c1 : Conversation) (l : list Conversation) :
  viewMode st = last ->
  conversations st = c0 :: c1 :: l ->
  filteredConversations st = [c0] ->
  conversation_id c1 <> conversation_id c0 ->
  let st' := deleteConversation (Resolved true tt) (conversation_id c0) st in
  filteredConversations st' = []
  /\ filteredConversations (applyFilters Date_now st') = [c1].
Proof.
  intros Hv Hc Hf Hne st'. subst st'. unfold applyFilters.
  cbn [deleteConversation filteredConversations setFilteredConversations
       setConversations conversations viewMode].
  rewrite Hv, Hc, Hf. unfold without. cbn [List.filter].
  rewrite String.eqb_refl. apply String.eqb_neq in Hne. rewrite Hne.
  split; reflexivity.
Qed.

Lemma deleteConversation_last_shows_nothing_witness :
  let st := applyFilters 1700000000000
              (fetchConversations
                 (Resolved true [conversation_at "c1" 10; conversation_at "c2" 20])
                 "" initial) in
  let st' := deleteConversation (Resolved true tt) "c2" st in
  filteredConversations st' = []
  /\ filteredConversations (applyFilters 1700000000000 st') = [conversation_at "c1" 10].
Proof.
  cbv zeta.
  apply (deleteConversation_last_shows_nothing 1700000000000
           (applyFilters 1700000000000
              (fetchConversations
                 (Resolved true [conversation_at "c1" 10; conversation_at "c2" 20])
                 "" initial))
           (conversation_at "c2" 20) (conversation_at "c1" 10) []);
    [reflexivity | reflexivity | reflexivity | discriminate].
Defined.

Lemma insert_sorted_same_start (a : Conversation) (s : list Conversation) (t : Q) :
  List.filter (fun c => Qeq_bool (start_time_unix_secs c) t) (insert_sorted a s)
  = List.filter (fun c => Qeq_bool (start_time_unix_secs c) t) (a :: s).
Proof.
  induction s as [| b s IH]; [reflexivity |].
  cbn [insert_sorted]. destruct (stays_before a b) eqn:E; [reflexivity |].
  cbn [List.filter] in *. rewrite IH.
  destruct (Qeq_bool (start_time_unix_secs b) t) eqn:Eb; [| reflexivity].
  destruct (Qeq_bool (start_time_unix_secs a) t) eqn:Ea; [| reflexivity].
  exfalso. apply Qeq_bool_iff in Ea, Eb.
  assert (Hle : stays_before a b = true)
    by (apply Qle_bool_iff; rewrite Ea, Eb; apply Qle_refl).
  congruence.
Qed.

(** X5 — a successful [fetchConversations] stores, in both lists, a
    permutation of the fetched conversations ordered by start time
    descending, in which conversations with the same start time keep their
    fetched order; it clears [loading] and leaves [error] as it was. *)
Theorem fetchConversations_success (data : list Conversation) (msg : string)
    (st : Dashboard) :
  let st' := fetchConversations (Resolved true data) msg st in
  Permutation data (conversations st')
  /\ descending (conversations st')
  /\ (forall t, List.filter (fun c => Qeq_bool (start_time_unix_secs c) t) (conversations st')
                = List.filter (fun c => Qeq_bool (start_time_unix_secs c) t) data)
  /\ filteredConversations st' = conversations st'
  /\ loading st' = false
  /\ error st' = error st.
Proof.
  cbv zeta. cbn [fetchConversations conversations filteredConversations loading error
                 setLoading setFilteredConversations setConversations].
  split; [apply sort_conversations_Permutation |].
  split; [apply sort_conversations_descending |].
  split; [| repeat split].
  intros t. induction data as [| a l IH]; [reflexivity |].
  cbn [sort_conversations]. rewrite insert_sorted_same_start.
  cbn [List.filter]. now rewrite IH.
Qed.

(** X6 — when the list request fails ([response.ok] false, or the promise
    rejects) [fetchConversations] leaves both lists and every filter as
    they were, records the error message and clears [loading]. *)
Theorem fetchConversations_failure (response : Fetched (list Conversation))
    (msg : string) (st : Dashboard) :
  (forall data, response <> Resolved true data) ->
  let st' := fetchConversations response msg st in
  st' = setLoading false
          (setError (Some match response with
                          | Rejected => msg
                          | _ => "Failed to fetch conversations"
                          end) st)
  /\ conversations st' = conversations st
  /\ filteredConversations st' = filteredConversations st
  /\ error st' <> None
  /\ loading st' = false.
Proof.
  intros Hfail. destruct response as [| [|] data]; [| now destruct (Hfail data) |];
    cbv zeta; repeat split; discriminate.
Qed.

Lemma fetchConversations_failure_witness :
  let st := showing_all [conversation_at "c1" 10] in
  error (fetchConversations (Resolved false []) "" st)
  = Some "Failed to fetch conversations"
  /\ conversations (fetchConversations (Resolved false []) "" st) = conversations st.
Proof.
  cbv zeta.
  destruct (fetchConversations_failure (Resolved false []) ""
              (showing_all [conversation_at "c1" 10]))
    as (Hst & Hc & _); [discriminate |].
  split; [now rewrite Hst | exact Hc].
Defined.

Lemma step_sublist (st st' : Dashboard) :
  step st st' ->
  sublist (filteredConversations st) (conversations st) ->
  sublist (filteredConversations st') (conversations st').
Proof.
  intros Hstep Hsub. destruct Hstep; try exact Hsub.
  - destruct response as [| [|] data]; cbn; try exact Hsub. reflexivity.
  - destruct response as [| [|] data]; cbn; try exact Hsub.
    clear -Hsub. induction Hsub as [| x l1 l2 _ IH | x l1 l2 _ IH]; cbn.
    + constructor.
    + destruct (negb _); [now constructor | exact IH].
    + destruct (negb _); [now constructor | exact IH].
  - apply applyFilters_sublist_aux.
Qed.

(** X7 — in every state the dashboard can reach, the stored list is ordered
    by start time descending and the displayed list is a subsequence of the
    stored list. *)
Theorem dashboard_invariant (st : Dashboard) :
  reachable st ->
  descending (conversations st)
  /\ sublist (filteredConversations st) (conversations st).
Proof.
  induction 1 as [| st st' _ [IHd IHs] Hstep].
  - split; constructor.
  - split; [now apply (step_descending st) | now apply (step_sublist st)].
Qed.

Lemma dashboard_invariant_witness :
  let st := deleteConversation (Resolved true tt) "c1"
              (fetchConversations
                 (Resolved true [conversation_at "c1" 10; conversation_at "c2" 20])
                 "" initial) in
  descending (conversations st)
  /\ sublist (filteredConversations st) (conversations st).
Proof.
  cbv zeta. apply dashboard_invariant.
  eapply reachable_step; [| apply step_delete].
  eapply reachable_step; [apply reachable_initial | apply step_fetch].
Defined.

(** X8 — successful deletes are idempotent and commute, and after one the
    identifier occurs in neither list. *)
Theorem deleteConversation_algebra (a b : string) (st : Dashboard) :
  let del := deleteConversation (Resolved true tt) in
  del a (del a st) = del a st
  /\ del a (del b st) = del b (del a st)
  /\ (forall c, In c (conversations (del a st)) -> conversation_id c <> a)
  /\ (forall c, In c (filteredConversations (del a st)) -> conversation_id c <> a).
Proof.
  assert (Hidem : forall l, without a (without a l) = without a l).
  { intros l. apply without_absent. intros c Hc. now apply without_In in Hc. }
  assert (Hcomm : forall l, without a (without b l) = without b (without a l))
    by (intros l; apply filter_comm).
  cbv zeta. unfold deleteConversation, setFilteredConversations, setConversations.
  cbn [conversations filteredConversations viewMode loading error searchTerm
       statusFilter agentFilter successFilter dateFilter].
  split; [now rewrite !Hidem |].
  split; [now rewrite !Hcomm |].
  split; intros c Hc; now apply without_In in Hc.
Qed.

(** X9 — [clearFilters] resets the search term and the four selectors and
    nothing else; in view mode 'all' the next [applyFilters] then displays
    the whole stored list. *)
Theorem clearFilters_shows_everything (Date_now : Z) (st : Dashboard) :
  let st' := clearFilters st in
  conversations st' = conversations st
  /\ filteredConversations st' = filteredConversations st
  /\ viewMode st' = viewMode st
  /\ (viewMode st = all ->
      filteredConversations (applyFilters Date_now st') = conversations st).
Proof.
  cbv zeta. repeat split. intros Hv. unfold applyFilters.
  cbn [clearFilters setDateFilter setSuccessFilter setAgentFilter setStatusFilter
       setSearchTerm filteredConversations setFilteredConversations conversations
       viewMode searchTerm statusFilter agentFilter successFilter dateFilter].
  now rewrite Hv.
Qed.

Lemma clearFilters_shows_everything_witness :
  let st := setDateFilter "week" (setStatusFilter "failed"
              (showing_all [conversation_at "c1" 10])) in
  filteredConversations (applyFilters 1700000000000 (clearFilters st)) = conversations st.
Proof.
  cbv zeta.
  apply (clearFilters_shows_everything 1700000000000
           (setDateFilter "week" (setStatusFilter "failed"
              (showing_all [conversation_at "c1" 10])))).
  reflexivity.
Defined.

(* ===================================================================== *)
(** ** The agent selector *)
(* ===================================================================== *)

Section UniqueAgents.

Let add (seen : list string) (x : string) : list string :=
  if existsb (String.eqb x) seen then seen else (seen ++ [x])%list.

Lemma existsb_eqb_In (x : string) (l : list string) :
  existsb (String.eqb x) l = true <-> In x l.
Proof.
  rewrite existsb_exists. split.
  - intros (y & Hy & E). apply String.eqb_eq in E. now subst.
  - intros H. exists x. split; [assumption | apply String.eqb_refl].
Qed.

Lemma fold_add_spec (xs seen : list string) :
  List.NoDup seen ->
  List.NoDup (fold_left add xs seen)
  /\ (forall y, In y (fold_left add xs seen) <-> In y seen \/ In y xs).
Proof.
  revert seen. induction xs as [| x xs IH]; intros seen Hnd; cbn [fold_left].
  - split; [assumption | intros y; cbn; tauto].
  - assert (Hadd : List.NoDup (add seen x)
                   /\ forall y, In y (add seen x) <-> In y seen \/ y = x).
    { unfold add. destruct (existsb (String.eqb x) seen) eqn:E.
      - apply existsb_eqb_In in E. split; [assumption |].
        intros y. split; [tauto | intros [H | ->]; assumption].
      - assert (Hx : ~ In x seen)
          by (intros H; apply existsb_eqb_In in H; congruence).
        split.
        + apply List.NoDup_app; [assumption | |].
          * constructor; [intros [] | constructor].
          * intros y Hy [<- | []]. contradiction.
        + intros y. rewrite in_app_iff. cbn. intuition. }
    destruct Hadd as [Hnd' Hin]. destruct (IH _ Hnd') as [IH1 IH2].
    split; [assumption |].
    intros y. rewrite IH2, Hin. cbn. intuition.
Qed.

Lemma Set_of_spec (xs : list string) :
  List.NoDup (Set_of xs) /\ forall y, In y (Set_of xs) <-> In y xs.
Proof.
  destruct (fold_add_spec xs [] (List.NoDup_nil _)) as [H1 H2].
  split; [exact H1 |]. intros y. unfold Set_of. fold add. rewrite H2. cbn. tauto.
Qed.

Lemma insert_string_Permutation (x : string) (l : list string) :
  Permutation (x :: l) (insert_string x l).
Proof.
  induction l as [| y l IH]; cbn; [reflexivity |].
  destruct (String.leb x y); [reflexivity |].
  rewrite perm_swap. now constructor.
Qed.

Lemma sort_strings_Permutation (l : list string) :
  Permutation l (sort_strings l).
Proof.
  induction l as [| x l IH]; cbn; [constructor |].
  rewrite <- insert_string_Permutation. now constructor.
Qed.



End UniqueAgents.

Lemma getUniqueAgents_members (st : Dashboard) (a : string) :
  In a (getUniqueAgents st)
  <-> exists c, In c (conversations st) /\ agent_name c = a.
Proof.
  unfold getUniqueAgents. cbv zeta.
  destruct (Set_of_spec (map agent_name (conversations st))) as [_ Hin].
  rewrite <- (Permutation_in' eq_refl (sort_strings_Permutation _)).
  rewrite Hin, in_map_iff. split; intros (c & H1 & H2); exists c; tauto.
Qed.


(** X11 — choosing in the agent selector a name that [getUniqueAgents]
    offers (other than the literal 'all'), with no other filter set,
    displays a non-empty list: exactly the stored conversations of that
    agent, in stored order. *)
Theorem agentFilter_offered_agent (Date_now : Z) (st : Dashboard) (agent : string) :
  In agent (getUniqueAgents st) ->
  agent <> "all" ->
  let st' := setAgentFilter agent (setViewMode all (clearFilters st)) in
  let shown := filteredConversations (applyFilters Date_now st') in
  shown = List.filter (fun conv => String.eqb (agent_name conv) agent) (conversations st)
  /\ shown <> []
  /\ (forall c, In c shown <-> In c (conversations st) /\ agent_name c = agent).
Proof.
  intros Hin Hne. cbv zeta.
  assert (E : filteredConversations
                (applyFilters Date_now
                   (setAgentFilter agent (setViewMode all (clearFilters st))))
              = List.filter (fun conv => String.eqb (agent_name conv) agent)
                  (conversations st)).
  { unfold applyFilters.
    cbn [clearFilters setDateFilter setSuccessFilter setAgentFilter setStatusFilter
         setSearchTerm setViewMode filteredConversations setFilteredConversations
         conversations viewMode searchTerm statusFilter agentFilter successFilter
         dateFilter].
    apply String.eqb_neq in Hne. now rewrite Hne. }
  rewrite E. split; [reflexivity |].
  assert (Hmem : forall c,
             In c (List.filter (fun conv => String.eqb (agent_name conv) agent)
                     (conversations st))
             <-> In c (conversations st) /\ agent_name c = agent).
  { intros c. now rewrite filter_In, String.eqb_eq. }
  split; [| exact Hmem].
  apply (proj1 (getUniqueAgents_members st agent)) in Hin as (c & Hc & Ha).
  intros Hnil. assert (H : In c []) by (rewrite <- Hnil; apply Hmem; tauto).
  destruct H.
Qed.

(* ===================================================================== *)
(** ** The age label *)
(* ===================================================================== *)

Section DaysAgo.

Local Open Scope Q_scope.




End DaysAgo.






(* ===================================================================== *)
(** ** Durations and the copied transcript *)
(* ===================================================================== *)

Lemma two_digits (s : Z) :
  0 <= s < 60 ->
  padStart2 (pretty s) = String (digit (s / 10)) (String (digit (s mod 10)) "").
Proof.
  intros Hs. rewrite <- (Z2Nat.id s) by lia.
  assert (Hn : (Z.to_nat s < 60)%nat) by lia.
  generalize dependent (Z.to_nat s). clear s Hs. intros n Hn.
  do 60 (destruct n as [| n]; [vm_compute; reflexivity |]).
  lia.
Qed.

(** X14 — for a non-negative whole number of seconds below 2^53 (the
    range in which a JavaScript number holds every integer exactly)
    [formatDuration] prints the minutes in decimal, a colon, and the
    remaining seconds as exactly two decimal digits; minutes and seconds
    recompose to the input. *)
Theorem formatDuration_nonnegative (seconds : Z) :
  0 <= seconds < 2 ^ 53 ->
  exists mins secs : Z,
    60 * mins + secs = seconds
    /\ 0 <= mins /\ 0 <= secs < 60
    /\ formatDuration seconds
       = pretty mins ++ ":"
         ++ String (digit (secs / 10)) (String (digit (secs mod 10)) "").
Proof.
  intros [Hs _]. exists (seconds / 60), (seconds mod 60).
  assert (Hmod := Z.mod_pos_bound seconds 60 ltac:(lia)).
  split; [symmetry; apply Z.div_mod; lia |].
  split; [apply Z.div_pos; lia |].
  split; [assumption |].
  unfold formatDuration. cbv zeta.
  rewrite Z.rem_mod_nonneg by lia. now rewrite two_digits.
Qed.

Lemma formatDuration_nonnegative_witness :
  exists mins secs : Z,
    60 * mins + secs = 125
    /\ 0 <= mins /\ 0 <= secs < 60
    /\ formatDuration 125
       = pretty mins ++ ":"
         ++ String (digit (secs / 10)) (String (digit (secs mod 10)) "").
Proof. apply formatDuration_nonnegative. lia. Defined.

Section CopiedText.

Lemma includes_colon_space (turn : TranscriptTurn) :
  JsString.includes (turn_line turn) ": " = true.
Proof.
  unfold turn_line. apply includes_append_r, includes_append_l, includes_refl.
Qed.

Lemma joined_lines_include_colon (sep : string) (t : TranscriptTurn)
    (l : list TranscriptTurn) :
  JsString.includes (JsString.join sep (map turn_line (t :: l))) ": " = true.
Proof.
  apply (join_includes _ _ (turn_line t)); [now left | apply includes_colon_space].
Qed.

Lemma includes_nonempty (hay : string) :
  JsString.includes hay ": " = true -> hay <> "" /\ hay <> "No transcript available".
Proof.
  intros H. split; intros ->; vm_compute in H; discriminate.
Qed.

End CopiedText.

(** X15 — the text [copyTranscript] writes is 'No transcript available'
    exactly when the transcript is missing or empty; otherwise it is the
    role-tagged turns joined by the four characters backslash, n,
    backslash, n (not by line breaks). *)
Theorem transcriptText_spec (transcript : option (list TranscriptTurn)) :
  (transcriptText transcript = "No transcript available"
   <-> transcript = None \/ transcript = Some [])
  /\ (forall t l, transcript = Some (t :: l) ->
        transcriptText transcript
        = JsString.join backslash_n_twice (map turn_line (t :: l)))
  /\ (forall t1 t2 l, transcript = Some (t1 :: t2 :: l) ->
        transcriptText transcript
        = turn_line t1 ++ backslash_n_twice ++ transcriptText (Some (t2 :: l))).
Proof.
  assert (Hjoin : forall t l,
             transcriptText (Some (t :: l))
             = JsString.join backslash_n_twice (map turn_line (t :: l))).
  { intros t l. unfold transcriptText. cbv zeta.
    change "\n\n" with backslash_n_twice.
    change (fun turn => JsString.toUpperCase (role turn) ++ ": " ++ message turn)
      with turn_line.
    destruct (includes_nonempty _ (joined_lines_include_colon backslash_n_twice t l))
      as [Hne _].
    unfold or_else.
    destruct (JsString.join backslash_n_twice (map turn_line (t :: l)));
      [congruence | reflexivity]. }
  split; [| split].
  - split.
    + destruct transcript as [[| t l] |]; [now right | | now left].
      rewrite Hjoin. intros H. exfalso.
      now apply (includes_nonempty _ (joined_lines_include_colon backslash_n_twice t l)).
    + now intros [-> | ->].
  - intros t l ->. apply Hjoin.
  - intros t1 t2 l ->. now rewrite !Hjoin.
Qed.

Lemma transcriptText_spec_witness :
  transcriptText (Some scenario_transcript)
  = "USER: What is the deadline?" ++ backslash_n_twice ++ "AGENT: Next Friday.".
Proof.
  rewrite (proj2 (proj2 (transcriptText_spec (Some scenario_transcript)))
             (mkTurn "user" "What is the deadline?") (mkTurn "agent" "Next Friday.") []
             eq_refl).
  reflexivity.
Defined.

Lemma agentFilter_offered_agent_witness :
  let st := setStatusFilter "failed"
              (showing_all [conversation_at "c2" 20; conversation_at "c1" 10]) in
  filteredConversations
    (applyFilters 1700000000000
       (setAgentFilter "Support" (setViewMode all (clearFilters st))))
  <> [].
Proof.
  cbv zeta.
  apply (agentFilter_offered_agent 1700000000000
           (setStatusFilter "failed"
              (showing_all [conversation_at "c2" 20; conversation_at "c1" 10]))
           "Support").
  - left. reflexivity.
  - discriminate.
Defined.

(* ===================================================================== *)
(** ** More on the route handlers *)
(* ===================================================================== *)

(** X16 — the conversation routes: without ELEVENLABS_API_KEY both answer
    500 'ElevenLabs API key not configured' and send nothing; with it each
    sends exactly one request, a GET or a DELETE without body to
    https://api.elevenlabs.io/v1/convai/conversations/{id} with the key in
    the xi-api-key header.  [GET] answers 200 with the provider's
    data unchanged exactly when the provider replied ok with a decodable
    body; [DELETE] answers 200 [{success: true}] exactly when the provider
    replied ok, whatever the body; every other case is a 500. *)
Theorem ConversationRoute_spec {A} (srv : Server) (elevenlabs : Request -> Upstream A)
    (id : string) :
  (env_truthy srv "ELEVENLABS_API_KEY" = None ->
   start (ConversationRoute.GET srv elevenlabs id)
   = (Returned (ConversationRoute.mkReply
                  (ConversationRoute.failed_json "ElevenLabs API key not configured") 500),
      [])
   /\ start (ConversationRoute.DELETE srv elevenlabs id)
      = (Returned (ConversationRoute.mkReply
                     (ConversationRoute.failed_json "ElevenLabs API key not configured") 500),
         []))
  /\ (forall apiKey,
        env_truthy srv "ELEVENLABS_API_KEY" = Some apiKey ->
        let get :=
          mkRequest ("https://api.elevenlabs.io/v1/convai/conversations/" ++ id)
            "GET" [xi_api_key apiKey] no_body in
        let del :=
          mkRequest ("https://api.elevenlabs.io/v1/convai/conversations/" ++ id)
            "DELETE" [xi_api_key apiKey] no_body in
        start (ConversationRoute.GET srv elevenlabs id)
        = (Returned
             match elevenlabs get with
             | replied true _ (Some data) =>
                 ConversationRoute.mkReply (ConversationRoute.data_json data) 200
             | _ => ConversationRoute.mkReply
                      (ConversationRoute.failed_json "Failed to fetch conversation details")
                      500
             end,
           [get])
        /\ start (ConversationRoute.DELETE srv elevenlabs id)
           = (Returned
                match elevenlabs del with
                | replied true _ _ =>
                    ConversationRoute.mkReply ConversationRoute.success_json 200
                | _ => ConversationRoute.mkReply
                         (ConversationRoute.failed_json "Failed to delete conversation") 500
                end,
              [del])).
Proof.
  split.
  - intros Hkey. unfold start, ConversationRoute.GET, ConversationRoute.DELETE.
    unfold_handler. rewrite Hkey. split; reflexivity.
  - intros apiKey Hkey get del.
    unfold start, ConversationRoute.GET, ConversationRoute.DELETE.
    unfold_handler. rewrite Hkey.
    change (ConversationRoute.provider_request "GET" apiKey id) with get.
    change (ConversationRoute.provider_request "DELETE" apiKey id) with del.
    split.
    + destruct (elevenlabs get) as [| [|] status [data |]]; reflexivity.
    + destruct (elevenlabs del) as [| [|] status [data |]]; reflexivity.
Qed.

Lemma ConversationRoute_spec_witness :
  start (ConversationRoute.GET transcript_server
           (provider_sending scenario_transcript) "conv_1")
  = (Returned (ConversationRoute.mkReply
                 (ConversationRoute.data_json scenario_transcript) 200),
     [mkRequest "https://api.elevenlabs.io/v1/convai/conversations/conv_1" "GET"
        [xi_api_key "xi-key"] no_body]).
Proof.
  apply (proj1 (proj2 (ConversationRoute_spec transcript_server
                         (provider_sending scenario_transcript) "conv_1")
                  "xi-key" ltac:(vm_compute; reflexivity))).
Defined.

(** X17 — no handler lets an exception escape: on every server, request
    and network behaviour each of the five [POST] routes returns a
    response, which has status 200 with a non-error body or status 400 or
    500 with an error body. *)
Theorem handlers_always_respond (srv : Server) :
  (forall request, exists r,
      fst (run (Analyze.POST srv request)) = Returned r /\ well_formed r)
  /\ (forall prompt request, exists r,
        fst (run (GenerateSummary.POST_with prompt srv request)) = Returned r
        /\ well_formed r)
  /\ (forall request, exists r,
        fst (run (GeminiTemplate.POST srv request)) = Returned r /\ well_formed r)
  /\ (forall request, exists r,
        fst (run (SashaEmail.POST srv request)) = Returned r /\ well_formed r)
  /\ (forall request, exists r,
        fst (run (MateiEmail.POST srv request)) = Returned r /\ well_formed r).
Proof.
  unfold well_formed.
  split; [| split; [| split; [| split]]].
  - intros request. unfold Analyze.POST. unfold_handler.
    repeat (case_scrutinee; cbn); eexists; (split; [reflexivity | cbn; tauto]).
  - intros prompt request. unfold GenerateSummary.POST_with. unfold_handler.
    repeat (case_scrutinee; cbn); eexists; (split; [reflexivity | cbn; tauto]).
  - intros request. unfold GeminiTemplate.POST, first_text_strict. unfold_handler.
    repeat (case_scrutinee; cbn); eexists; (split; [reflexivity | cbn; tauto]).
  - intros request. unfold SashaEmail.POST. unfold_handler.
    repeat (case_scrutinee; cbn); eexists; (split; [reflexivity | cbn; tauto]).
  - intros request. unfold MateiEmail.POST. unfold_handler.
    repeat (case_scrutinee; cbn); eexists; (split; [reflexivity | cbn; tauto]).
Qed.

(** X18 — with the API key configured, the answer route rejects a request
    without a transcript or without a non-empty question, and the summary
    route one without a transcript, with status 400 and before any outbound
    request; an undecodable request body gives their 500. *)
Theorem missing_fields_are_rejected (srv : Server) (apiKey : string) :
  env_truthy srv "GEMINI_API_KEY" = Some apiKey ->
  (forall b,
      Analyze.transcript b = None \/ Analyze.question b = None
      \/ Analyze.question b = Some "" ->
      run (Analyze.POST srv (Some b))
      = (Returned (mkResponse (error_json "Transcript and question are required") 400),
         []))
  /\ (forall prompt b,
        GenerateSummary.transcript b = None ->
        run (GenerateSummary.POST_with prompt srv (Some b))
        = (Returned (mkResponse (error_json "Transcript is required") 400), []))
  /\ run (Analyze.POST srv None)
     = (Returned (mkResponse (error_json "Failed to analyze transcript") 500), [])
  /\ (forall prompt,
        run (GenerateSummary.POST_with prompt srv None)
        = (Returned (mkResponse (error_json "Failed to generate summary") 500), [])).
Proof.
  intros Hkey. split; [| split; [| split]].
  - intros b H. unfold Analyze.POST. unfold_handler. rewrite Hkey.
    destruct H as [H | [H | H]]; rewrite H;
      try reflexivity; destruct (Analyze.transcript b); reflexivity.
  - intros prompt b H. unfold GenerateSummary.POST_with. unfold_handler.
    now rewrite Hkey, H.
  - unfold Analyze.POST. unfold_handler. now rewrite Hkey.
  - intros prompt. unfold GenerateSummary.POST_with. unfold_handler. now rewrite Hkey.
Qed.

Lemma missing_fields_are_rejected_witness :
  run (Analyze.POST (sample_server no_candidate)
         (Some (Analyze.mkBody (Some scenario_transcript) (Some ""))))
  = (Returned (mkResponse (error_json "Transcript and question are required") 400), []).
Proof.
  apply (proj1 (missing_fields_are_rejected (sample_server no_candidate) "gemini-key"
                  ltac:(vm_compute; reflexivity))).
  right; right. reflexivity.
Defined.

(** X19 — with a valid request and a configured key, when the call to the
    provider fails (rejected promise, status not ok, or undecodable body)
    the answer, summary and template routes answer 500 with their own fixed
    message, having sent exactly that one request. *)
Theorem provider_failure_is_500 (srv : Server) (apiKey : string) :
  env_truthy srv "GEMINI_API_KEY" = Some apiKey ->
  (forall transcript question,
      question <> "" ->
      let sent := Analyze.provider_request apiKey
                    (Analyze.prompt (formatTranscript transcript) question) in
      call_failed (gemini (net srv) sent) ->
      run (Analyze.POST srv (Some (Analyze.mkBody (Some transcript) (Some question))))
      = (Returned (mkResponse (error_json "Failed to analyze transcript") 500), [sent]))
  /\ (forall prompt transcript,
        let sent := GenerateSummary.provider_request apiKey
                      (prompt (formatTranscript transcript)) in
        call_failed (gemini (net srv) sent) ->
        run (GenerateSummary.POST_with prompt srv
               (Some (GenerateSummary.mkBody (Some transcript))))
        = (Returned (mkResponse (error_json "Failed to generate summary") 500), [sent]))
  /\ (forall discussionContent,
        discussionContent <> "" ->
        let sent := GeminiTemplate.provider_request apiKey discussionContent in
        call_failed (gemini (net srv) sent) ->
        run (GeminiTemplate.POST srv
               (Some (GeminiTemplate.mkBody (Some discussionContent))))
        = (Returned (mkResponse (error_json "Failed to generate template") 500), [sent])).
Proof.
  intros Hkey. split; [| split].
  - intros transcript [| x q] Hne sent Hfail; [congruence |].
    unfold Analyze.POST. unfold_handler. rewrite Hkey.
    cbn [Analyze.transcript Analyze.question]. fold sent.
    destruct (gemini (net srv) sent) as [| [|] status [data |]];
      try reflexivity. destruct Hfail.
  - intros prompt transcript sent Hfail.
    unfold GenerateSummary.POST_with. unfold_handler. rewrite Hkey.
    cbn [GenerateSummary.transcript]. fold sent.
    destruct (gemini (net srv) sent) as [| [|] status [data |]];
      try reflexivity. destruct Hfail.
  - intros [| x c] Hne sent Hfail; [congruence |].
    unfold GeminiTemplate.POST. unfold_handler.
    cbn [GeminiTemplate.discussionContent]. rewrite Hkey. fold sent.
    destruct (gemini (net srv) sent) as [| [|] status [data |]];
      try reflexivity. destruct Hfail.
Qed.

Lemma provider_failure_is_500_witness :
  fst (run (Analyze.POST provider_down_server
              (Some (Analyze.mkBody (Some scenario_transcript) (Some scenario_question)))))
  = Returned (mkResponse (error_json "Failed to analyze transcript") 500).
Proof.
  rewrite (proj1 (provider_failure_is_500 provider_down_server "gemini-key"
                    ltac:(vm_compute; reflexivity))
             scenario_transcript scenario_question ltac:(discriminate) I).
  reflexivity.
Defined.

(** X20 — the order of the checks differs between the routes.  Without
    GEMINI_API_KEY the answer and summary routes answer 500 'Gemini API key
    not configured' whatever the request, even an undecodable one; the
    template route decodes and validates the request first, so it answers
    500 'Failed to generate template' to an undecodable body and 400 to a
    missing or empty discussionContent, and reports the missing key only
    for a valid request.  None of them sends anything. *)
Theorem validation_order (srv : Server) :
  env_truthy srv "GEMINI_API_KEY" = None ->
  (forall request,
      run (Analyze.POST srv request)
      = (Returned (mkResponse (error_json "Gemini API key not configured") 500), []))
  /\ (forall prompt request,
        run (GenerateSummary.POST_with prompt srv request)
        = (Returned (mkResponse (error_json "Gemini API key not configured") 500), []))
  /\ run (GeminiTemplate.POST srv None)
     = (Returned (mkResponse (error_json "Failed to generate template") 500), [])
  /\ (forall b,
        GeminiTemplate.discussionContent b = None
        \/ GeminiTemplate.discussionContent b = Some "" ->
        run (GeminiTemplate.POST srv (Some b))
        = (Returned (mkResponse (error_json "Discussion content is required") 400), []))
  /\ (forall b discussionContent,
        GeminiTemplate.discussionContent b = Some discussionContent ->
        discussionContent <> "" ->
        run (GeminiTemplate.POST srv (Some b))
        = (Returned (mkResponse (error_json "Gemini API key not configured") 500), [])).
Proof.
  intros Hkey. split; [| split; [| split; [| split]]].
  - intros request. unfold Analyze.POST. unfold_handler. now rewrite Hkey.
  - intros prompt request. unfold GenerateSummary.POST_with. unfold_handler.
    now rewrite Hkey.
  - reflexivity.
  - intros b [H | H]; unfold GeminiTemplate.POST; unfold_handler; now rewrite H.
  - intros b [| x c] H Hne; [congruence |].
    unfold GeminiTemplate.POST. unfold_handler. now rewrite H, Hkey.
Qed.

Lemma validation_order_witness :
  run (Analyze.POST unconfigured_server None)
  = (Returned (mkResponse (error_json "Gemini API key not configured") 500), [])
  /\ run (GeminiTemplate.POST unconfigured_server (Some (GeminiTemplate.mkBody None)))
     = (Returned (mkResponse (error_json "Discussion content is required") 400), []).
Proof.
  destruct (validation_order unconfigured_server ltac:(vm_compute; reflexivity))
    as (Ha & _ & _ & Ht & _).
  split; [apply Ha | apply Ht; now left].
Defined.

(** X21 — the template route hands on the text of the first part of the
    first candidate as it is: an empty text is returned as the analysis and
    a missing text gives a 200 without an analysis, with no fallback string;
    it answers 500 when the candidate list, the content, or the part list is
    missing or empty. *)
Theorem GeminiTemplate_first_part (srv : Server) (apiKey discussionContent : string)
    (status : Z) (data : GeminiData) :
  env_truthy srv "GEMINI_API_KEY" = Some apiKey ->
  discussionContent <> "" ->
  gemini (net srv) (GeminiTemplate.provider_request apiKey discussionContent)
  = replied true status (Some data) ->
  let result := fst (run (GeminiTemplate.POST srv
                            (Some (GeminiTemplate.mkBody (Some discussionContent))))) in
  (forall c cs ct p ps,
      candidates data = Some (c :: cs) -> content c = Some ct ->
      parts ct = Some (p :: ps) ->
      result = Returned (mkResponse (analysis_json (text p)) 200))
  /\ (candidates data = None \/ candidates data = Some []
      \/ (exists c cs, candidates data = Some (c :: cs)
            /\ (content c = None
                \/ exists ct, content c = Some ct
                     /\ (parts ct = None \/ parts ct = Some []))) ->
      result = Returned (mkResponse (error_json "Failed to generate template") 500)).
Proof.
  intros Hkey Hne Hreply result. subst result.
  destruct discussionContent as [| x s]; [congruence |].
  unfold GeminiTemplate.POST, first_text_strict. unfold_handler.
  cbn [GeminiTemplate.discussionContent]. rewrite Hkey, Hreply. cbn.
  split.
  - intros c cs ct p ps Hc Hct Hp. now rewrite Hc, Hct, Hp.
  - intros [H | [H | (c & cs & Hc & [H | (ct & Hct & [H | H])])]];
      rewrite ?Hc, ?Hct, ?H; reflexivity.
Qed.

Lemma GeminiTemplate_first_part_witness :
  fst (run (GeminiTemplate.POST (sample_server (single_candidate ""))
              (Some (GeminiTemplate.mkBody (Some "One-on-One Prep")))))
  = Returned (mkResponse (analysis_json (Some "")) 200).
Proof.
  apply (proj1 (GeminiTemplate_first_part (sample_server (single_candidate ""))
                  "gemini-key" "One-on-One Prep" 200 (single_candidate "")
                  ltac:(vm_compute; reflexivity) ltac:(discriminate) eq_refl)
           (mkCandidate (Some (mkContent (Some [mkPart (Some "")])))) []
           (mkContent (Some [mkPart (Some "")])) (mkPart (Some "")) []);
    reflexivity.
Defined.

(** X22 — the sasha e-mail route sends to whatever address the request
    names: with a non-empty [recipient] every message it submits is
    addressed to that value, not to EMAIL_RECIPIENTS, and the success
    response reports it; an empty [recipient] counts as missing and the
    EMAIL_RECIPIENTS value is used.  Whenever the conversation and summary
    calls succeed, the third request the route sends is the message, posted
    to the Mailgun endpoint with that address in its 'to' field. *)
Theorem SashaEmail_explicit_recipient (srv : Server) (b : EmailBody)
    (geminiApiKey mailgunApiKey emailRecipient : string) :
  env_truthy srv "GEMINI_API_KEY" = Some geminiApiKey ->
  env_truthy srv "MAILGUN_API_KEY" = Some mailgunApiKey ->
  env_truthy srv "EMAIL_RECIPIENTS" = Some emailRecipient ->
  let result := run (SashaEmail.POST srv (Some b)) in
  forall addressee,
    (exists r, recipient b = Some r /\ r <> "" /\ addressee = r)
    \/ (recipient b = Some "" /\ addressee = emailRecipient) ->
    (forall req fields to,
        In req (snd result) -> body req = form_data fields ->
        In ("to", to) fields -> to = addressee)
    /\ (forall summary to,
          fst result = Returned (mkResponse (agenda_sent_json summary to) 200) ->
          to = addressee)
    /\ (forall s1 s2 transcript summary,
          let base :=
            or_else (env srv !! "NEXT_PUBLIC_BASE_URL") "http://localhost:3000" in
          let details :=
            mkRequest (base ++ "/api/conversations/" ++ interpolate (conversationId b))
              "GET" [] no_body in
          let summarise :=
            mkRequest (base ++ "/api/generate-summary") "POST"
              [content_type_json] (transcript_json transcript) in
          conversation_api (net srv) details = replied true s1 (Some transcript) ->
          summary_api (net srv) summarise = replied true s2 (Some summary) ->
          exists text,
            snd result
            = [ details;
                summarise;
                mkRequest "https://api.mailgun.net/v3/ai.complete.city/messages" "POST"
                  [authorization_basic "api" mailgunApiKey]
                  (form_data
                     [ ("from", "Sasha <arihant@ai.complete.city>");
                       ("to", addressee);
                       ("subject", "Agenda for Our Upcoming Meeting");
                       ("text", text) ]) ]).
Proof.
  intros Hg Hm Hr result addressee Haddr. subst result.
  assert (Hor : or_else (recipient b) emailRecipient = addressee).
  { destruct Haddr as [(r & -> & Hne & ->) | [-> ->]]; [| reflexivity].
    destruct r; [congruence | reflexivity]. }
  unfold SashaEmail.POST. unfold_handler. rewrite Hg, Hm, Hr.
  cbv zeta. rewrite Hor. clear Hor Haddr.
  split; [| split].
  - intros req fields to.
    repeat (case_scrutinee; cbn);
      intros Hin Hbody Hto;
      repeat (destruct Hin as [<- | Hin]; [try discriminate Hbody |]);
      try destruct Hin.
    all: injection Hbody as <-.
    all: destruct Hto as [E | [E | [E | [E | []]]]]; congruence.
  - intros summary to.
    repeat (case_scrutinee; cbn); intros [=]; congruence.
  - cbv [SashaEmail.conversation_request SashaEmail.summary_request
         SashaEmail.base_url SashaEmail.mailgun_request mailgun_url].
    intros s1 s2 transcript summary Hc Hs.
    rewrite Hc. cbn. rewrite Hs. cbn.
    eexists. case_scrutinee; [reflexivity |].
    destruct ok; reflexivity.
Qed.

Lemma SashaEmail_explicit_recipient_witness :
  exists summary to,
    fst (run (SashaEmail.POST (sample_server no_candidate)
                (Some (mkEmailBody (Some "conv_1") (Some "eve@example.org")))))
    = Returned (mkResponse (agenda_sent_json summary to) 200)
    /\ to = "eve@example.org".
Proof.
  do 2 eexists. split; [reflexivity |].
  apply (proj1 (proj2 (SashaEmail_explicit_recipient (sample_server no_candidate)
                  (mkEmailBody (Some "conv_1") (Some "eve@example.org"))
                  "gemini-key" "mailgun-key" "team@example.com"
                  ltac:(vm_compute; reflexivity) ltac:(vm_compute; reflexivity)
                  ltac:(vm_compute; reflexivity) "eve@example.org"
                  ltac:(left; exists "eve@example.org"; repeat split; discriminate)))
           "1. The deadline is next Friday.").
  reflexivity.
Defined.

Lemma prefix_append (a b : string) : String.prefix a (a ++ b) = true.
Proof. apply prefix_spec. now exists b. Qed.

Lemma greeting_prefix (a i r m : string) :
  String.prefix (a ++ i ++ ",") (a ++ i ++ String "," r ++ m) = true.
Proof.
  apply prefix_spec. exists (r ++ m). now rewrite !append_assoc.
Qed.

(** X23 — the greeting of the sasha e-mail interpolates the request's
    [recipient] as it came: every message the route submits begins with
    'Dear ', that value and a comma, so a request without a recipient is
    greeted 'Dear undefined,' although it is addressed to the
    EMAIL_RECIPIENTS value. *)
Theorem SashaEmail_greeting (srv : Server) (b : EmailBody) :
  let result := run (SashaEmail.POST srv (Some b)) in
  forall req fields text,
    In req (snd result) -> body req = form_data fields ->
    In ("text", text) fields ->
    String.prefix ("Dear " ++ interpolate (recipient b) ++ ",") text = true
    /\ (recipient b = None -> String.prefix "Dear undefined," text = true).
Proof.
  cbv zeta. intros req fields text Hin Hreq Htext.
  assert (Hmail : exists summary date,
             text = SashaEmail.emailBody (recipient b) summary date).
  { revert Hin Hreq Htext. unfold SashaEmail.POST. unfold_handler.
    repeat (case_scrutinee; cbn [fst snd negb]);
      intros Hin Hreq Htext;
      repeat (destruct Hin as [<- | Hin]; [try discriminate Hreq |]);
      try destruct Hin.
    all: injection Hreq as <-.
    all: destruct Htext as [E | [E | [E | [E | []]]]]; try discriminate E.
    all: injection E as <-.
    all: eexists; eexists; reflexivity. }
  destruct Hmail as (summary & date & ->).
  assert (Hprefix : String.prefix ("Dear " ++ interpolate (recipient b) ++ ",")
                      (SashaEmail.emailBody (recipient b) summary date) = true)
    by (unfold SashaEmail.emailBody; apply greeting_prefix).
  split; [exact Hprefix |].
  intros Hnone. rewrite Hnone in Hprefix |- *. exact Hprefix.
Qed.

Lemma SashaEmail_greeting_witness :
  String.prefix "Dear undefined,"
    (SashaEmail.emailBody None "1. The deadline is next Friday." "11/2/2026") = true.
Proof.
  apply (proj2 (SashaEmail_greeting (sample_server no_candidate)
                  (mkEmailBody (Some "conv_1") None)
                  (SashaEmail.mailgun_request "mailgun-key" "team@example.com"
                     (SashaEmail.emailBody None "1. The deadline is next Friday."
                        "11/2/2026"))
                  _ _
                  ltac:(do 2 right; left; reflexivity) eq_refl
                  ltac:(do 3 right; left; reflexivity))).
  reflexivity.
Defined.

Lemma email_text_names_conversation (pre lit id mid timestamp post : string) :
  JsString.includes ((pre ++ lit) ++ id ++ mid ++ timestamp ++ post)
    (lit ++ id ++ mid ++ timestamp) = true.
Proof.
  apply includes_spec. exists pre, post.
  now rewrite !append_assoc.
Qed.

(** X24 — both e-mail routes report success only after every upstream call
    succeeded and Mailgun accepted the message.  A 200 from the sasha route
    means the request body was decodable and the log is, in this order, the
    GET of the conversation from the route's own base URL, the POST of its
    transcript to the summary route, and the POST of the message to the
    Mailgun endpoint, each answered ok.  A 200 from the matei route means
    the log is the POST of the fixed space-fact prompt to the provider and
    the POST of the message to the Mailgun endpoint, each answered ok.
    Neither route ever sends more than that. *)
Theorem email_success_means_accepted (srv : Server) (request : option EmailBody) :
  (let result := run (SashaEmail.POST srv request) in
   (length (snd result) <= 3)%nat
   /\ forall r, fst result = Returned r -> http_status r = 200 ->
        exists b mailgunApiKey transcript summary to text s1 s2 status sent,
          let base :=
            or_else (env srv !! "NEXT_PUBLIC_BASE_URL") "http://localhost:3000" in
          let details :=
            mkRequest (base ++ "/api/conversations/" ++ interpolate (conversationId b))
              "GET" [] no_body in
          let summarise :=
            mkRequest (base ++ "/api/generate-summary") "POST"
              [content_type_json] (transcript_json transcript) in
          let message :=
            mkRequest "https://api.mailgun.net/v3/ai.complete.city/messages" "POST"
              [authorization_basic "api" mailgunApiKey]
              (form_data
                 [ ("from", "Sasha <arihant@ai.complete.city>");
                   ("to", to);
                   ("subject", "Agenda for Our Upcoming Meeting");
                   ("text", text) ]) in
          request = Some b
          /\ env_truthy srv "MAILGUN_API_KEY" = Some mailgunApiKey
          /\ snd result = [details; summarise; message]
          /\ conversation_api (net srv) details = replied true s1 (Some transcript)
          /\ summary_api (net srv) summarise = replied true s2 (Some summary)
          /\ mailgun (net srv) message = replied true status sent)
  /\ (let result := run (MateiEmail.POST srv request) in
      (length (snd result) <= 2)%nat
      /\ forall r, fst result = Returned r -> http_status r = 200 ->
           exists b geminiApiKey mailgunApiKey geminiData to subject text s1 status sent,
             let provider :=
               mkRequest
                 ("https://generativelanguage.googleapis.com/v1beta/models/gemini-1.5-flash-latest:generateContent?key="
                  ++ geminiApiKey)
                 "POST" [content_type_json]
                 (generate_content
                    "Generate a fascinating space fact in 2-3 sentences about black holes, galaxies, or space exploration. Make it engaging and educational."
                    (Some (mkGenerationConfig 0.8%Q 40 0.95%Q 200))) in
             let message :=
               mkRequest "https://api.mailgun.net/v3/ai.complete.city/messages" "POST"
                 [authorization_basic "api" mailgunApiKey]
                 (form_data
                    [ ("from", "Arihant's Agent <arihant@ai.complete.city>");
                      ("to", to);
                      ("subject", subject);
                      ("text", text) ]) in
             request = Some b
             /\ env_truthy srv "GEMINI_API_KEY" = Some geminiApiKey
             /\ env_truthy srv "MAILGUN_API_KEY" = Some mailgunApiKey
             /\ snd result = [provider; message]
             /\ gemini (net srv) provider = replied true s1 (Some geminiData)
             /\ mailgun (net srv) message = replied true status sent).
Proof.
  cbv zeta. split.
  - unfold SashaEmail.POST. unfold_handler.
    repeat (case_scrutinee; cbn [fst snd negb length app]);
      (split; [lia |]); intros r [= <-] Hstatus; try discriminate Hstatus.
    all: repeat match goal with
                | H : negb ?ok = false |- _ => apply negb_false_iff in H; subst ok
                end.
    all: do 10 eexists.
    all: split; [reflexivity |].
    all: split; [reflexivity |].
    all: split; [reflexivity |].
    all: split; [eassumption |].
    all: split; eassumption.
  - unfold MateiEmail.POST. unfold_handler.
    repeat (case_scrutinee; cbn [fst snd negb length app]);
      (split; [lia |]); intros r [= <-] Hstatus; try discriminate Hstatus.
    all: repeat match goal with
                | H : negb ?ok = false |- _ => apply negb_false_iff in H; subst ok
                end.
    all: do 10 eexists.
    all: split; [reflexivity |].
    all: split; [reflexivity |].
    all: split; [reflexivity |].
    all: split; [reflexivity |].
    all: split; eassumption.
Qed.

Lemma email_success_means_accepted_witness :
  exists subject text status sent,
    mailgun (net (sample_server (single_candidate "Black holes bend light.")))
      (mkRequest "https://api.mailgun.net/v3/ai.complete.city/messages" "POST"
         [authorization_basic "api" "mailgun-key"]
         (form_data
            [ ("from", "Arihant's Agent <arihant@ai.complete.city>");
              ("to", "team@example.com");
              ("subject", subject);
              ("text", text) ]))
    = replied true status sent.
Proof.
  destruct (email_success_means_accepted
              (sample_server (single_candidate "Black holes bend light."))
              (Some (mkEmailBody (Some "conv_1") None)))
    as [_ [_ H]].
  destruct (H _ eq_refl eq_refl)
    as (b & g & m & data & to & subject & text & s1 & status & sent & H').
  cbv zeta in H'. destruct H' as (_ & _ & Hm & Hlog & _ & Hsent).
  injection Hm as <-. injection Hlog as _ Hto _ _. subst to.
  exists subject, text, status, sent. exact Hsent.
Defined.

(** X25 — what the matei route sends when both upstream calls succeed: one
    provider request, the POST of the fixed space-fact prompt, which does
    not depend on the request body; then one message, posted to the Mailgun
    endpoint and addressed to EMAIL_RECIPIENTS, whose text carries the fact
    and the conversation id.  The fact is the provider's first text, or 'The
    universe is vast and full of wonders!' when that text is missing or
    empty; the subject is EMAIL_SUBJECT, or the default subject when that
    variable is missing or empty. *)
Theorem MateiEmail_content (srv : Server) (b : EmailBody)
    (geminiApiKey mailgunApiKey emailRecipient : string)
    (s1 s2 : Z) (geminiData : GeminiData) (sent : option unit) :
  env_truthy srv "GEMINI_API_KEY" = Some geminiApiKey ->
  env_truthy srv "MAILGUN_API_KEY" = Some mailgunApiKey ->
  env_truthy srv "EMAIL_RECIPIENTS" = Some emailRecipient ->
  let provider :=
    mkRequest
      ("https://generativelanguage.googleapis.com/v1beta/models/gemini-1.5-flash-latest:generateContent?key="
       ++ geminiApiKey)
      "POST" [content_type_json]
      (generate_content
         "Generate a fascinating space fact in 2-3 sentences about black holes, galaxies, or space exploration. Make it engaging and educational."
         (Some (mkGenerationConfig 0.8%Q 40 0.95%Q 200))) in
  gemini (net srv) provider = replied true s1 (Some geminiData) ->
  (forall req, mailgun (net srv) req = replied true s2 sent) ->
  exists spaceFact subject text,
    run (MateiEmail.POST srv (Some b))
    = (Returned (mkResponse (fact_sent_json spaceFact emailRecipient) 200),
       [ provider;
         mkRequest "https://api.mailgun.net/v3/ai.complete.city/messages" "POST"
           [authorization_basic "api" mailgunApiKey]
           (form_data
              [ ("from", "Arihant's Agent <arihant@ai.complete.city>");
                ("to", emailRecipient);
                ("subject", subject);
                ("text", text) ]) ])
    /\ text = MateiEmail.emailBody spaceFact (conversationId b) (toLocaleString srv)
    /\ JsString.includes text spaceFact = true
    /\ JsString.includes text
         ("(ID: " ++ interpolate (conversationId b) ++ ") at " ++ toLocaleString srv)
       = true
    /\ (first_text_optional geminiData = None \/ first_text_optional geminiData = Some "" ->
        spaceFact = "The universe is vast and full of wonders!")
    /\ (forall t, first_text_optional geminiData = Some t -> t <> "" -> spaceFact = t)
    /\ (env_truthy srv "EMAIL_SUBJECT" = None -> subject = "🌌 Your Space Fact")
    /\ (forall s, env_truthy srv "EMAIL_SUBJECT" = Some s -> subject = s).
Proof.
  intros Hg Hm Hr provider Hgemini Hmailgun.
  exists (or_else (first_text_optional geminiData)
            "The universe is vast and full of wonders!"),
    (or_else (env srv !! "EMAIL_SUBJECT") "🌌 Your Space Fact"),
    (MateiEmail.emailBody
       (or_else (first_text_optional geminiData)
          "The universe is vast and full of wonders!")
       (conversationId b) (toLocaleString srv)).
  split; [| split; [| split; [| split; [| split; [| split; [| split]]]]]].
  - unfold MateiEmail.POST. unfold_handler. rewrite Hg, Hm, Hr.
    change (MateiEmail.provider_request geminiApiKey) with provider.
    rewrite Hgemini. cbn.
    now rewrite Hmailgun.
  - reflexivity.
  - unfold MateiEmail.emailBody.
    apply includes_append_r, includes_append_l, includes_refl.
  - unfold MateiEmail.emailBody.
    apply includes_append_r, includes_append_r.
    apply (email_text_names_conversation "

This email was triggered by a conversation interaction " "(ID: ").
  - apply or_else_fallback.
  - intros t Ht Hne. now apply or_else_text.
  - unfold env_truthy. destruct (env srv !! "EMAIL_SUBJECT") as [[| x s] |];
      [reflexivity | discriminate | reflexivity].
  - intros s Hs. apply env_truthy_Some in Hs as [Hs Hne].
    now apply or_else_text.
Qed.

Lemma MateiEmail_content_witness :
  exists subject,
    run (MateiEmail.POST (sample_server no_candidate)
           (Some (mkEmailBody (Some "conv_1") (Some "eve@example.org"))))
    = (Returned (mkResponse
                   (fact_sent_json "The universe is vast and full of wonders!"
                      "team@example.com") 200),
       [ MateiEmail.provider_request "gemini-key";
         MateiEmail.mailgun_request "mailgun-key" "team@example.com" subject
           (MateiEmail.emailBody "The universe is vast and full of wonders!"
              (Some "conv_1") "11/2/2026, 9:00:00 AM") ]).
Proof.
  destruct (MateiEmail_content (sample_server no_candidate)
              (mkEmailBody (Some "conv_1") (Some "eve@example.org"))
              "gemini-key" "mailgun-key" "team@example.com" 200 200 no_candidate
              (Some tt)
              ltac:(vm_compute; reflexivity) ltac:(vm_compute; reflexivity)
              ltac:(vm_compute; reflexivity) eq_refl (fun _ => eq_refl))
    as (spaceFact & subject & text & Hrun & Htext & _ & _ & Hfallback & _).
  exists subject. rewrite Hrun, Htext, (Hfallback (or_introl eq_refl)). reflexivity.
Defined.

(* ===================================================================== *)
(** ** The per-conversation panel *)
(* ===================================================================== *)

Ltac unfold_client :=
  cbv [Client.with_transcript Client.call Client.json_of Client.throw
       mbind Client.M_bind mret Client.M_ret].

Lemma with_transcript_cases (api : Api) (conversationId failure : string)
    (route : option (list TranscriptTurn) -> Call) :
  let fetched := get_conversation conversationId in
  Client.with_transcript api conversationId failure route []
  = match api fetched with
    | replied true _ (Some details) =>
        match api (route (reply_transcript details)) with
        | replied true _ (Some reply) =>
            (Returned reply, [fetched; route (reply_transcript details)])
        | unreachable =>
            (Thrown FetchError, [fetched; route (reply_transcript details)])
        | replied false _ _ =>
            (Thrown (Error failure), [fetched; route (reply_transcript details)])
        | replied true _ None =>
            (Thrown SyntaxError, [fetched; route (reply_transcript details)])
        end
    | unreachable => (Thrown FetchError, [fetched])
    | replied false _ _ => (Thrown (Error "Failed to fetch conversation details"), [fetched])
    | replied true _ None => (Thrown SyntaxError, [fetched])
    end.
Proof.
  cbv zeta. unfold_client.
  destruct (api (get_conversation conversationId)) as [| [|] ? [details |]];
    try reflexivity.
  cbn. destruct (api (route (reply_transcript details))) as [| [|] ? [reply |]];
    reflexivity.
Qed.

Lemma assign_lookup (key : string) (value : option string) (m : gmap string string) :
  assign key value m !! key = value.
Proof.
  destruct value; cbn; [apply lookup_insert_eq | apply lookup_delete_eq].
Qed.

Lemma assign_lookup_ne (key other : string) (value : option string)
    (m : gmap string string) :
  other <> key -> assign key value m !! other = m !! other.
Proof.
  intros Hne. destruct value; cbn;
    [now apply lookup_insert_ne | now apply lookup_delete_ne].
Qed.

(** X26 — [askQuestion] does nothing, and calls nothing, when the
    conversation has no question or one that [trim] empties (white space
    and line terminators only).  Otherwise it fetches
    the conversation and, if that succeeded, posts the transcript with the
    question; it stores under this conversation the reply's answer when both
    calls succeeded and 'Error analyzing transcript. Please try again.' when
    either failed, leaves the loading flag of the conversation off, and
    touches no other conversation's answer or flag and no other part of the
    panel. *)
Theorem askQuestion_spec (api : Api) (conversationId : string) (ui : Panel) :
  let ui' := fst (askQuestion api conversationId ui) in
  let sent := snd (askQuestion api conversationId ui) in
  ((questions ui !! conversationId = None
    \/ exists q, questions ui !! conversationId = Some q /\ blank q = true) ->
   ui' = ui /\ sent = [])
  /\ (forall question,
        questions ui !! conversationId = Some question -> blank question = false ->
        loadingAnalysis ui' !! conversationId = Some false
        /\ (forall other, other <> conversationId ->
              answers ui' !! other = answers ui !! other
              /\ loadingAnalysis ui' !! other = loadingAnalysis ui !! other)
        /\ ui' = setLoadingAnalysis (loadingAnalysis ui') (setAnswers (answers ui') ui)
        /\ (call_failed (api (get_conversation conversationId)) ->
            answers ui' !! conversationId = Some analysisError
            /\ sent = [get_conversation conversationId])
        /\ (forall s1 details,
              api (get_conversation conversationId) = replied true s1 (Some details) ->
              let posted := post_analyze (reply_transcript details) question in
              sent = [get_conversation conversationId; posted]
              /\ (call_failed (api posted) ->
                  answers ui' !! conversationId = Some analysisError)
              /\ (forall s2 reply,
                    api posted = replied true s2 (Some reply) ->
                    answers ui' !! conversationId = reply_answer reply))).
Proof.
  cbv zeta. unfold askQuestion. split.
  - intros [-> | (q & -> & ->)]; split; reflexivity.
  - intros question -> Hblank. rewrite Hblank.
    change ((reply ← Client.with_transcript api conversationId
                       "Failed to analyze transcript"
                       (fun transcript => post_analyze transcript question);
             mret (reply_answer reply)) [])
      with (match Client.with_transcript api conversationId
                    "Failed to analyze transcript"
                    (fun transcript => post_analyze transcript question) [] with
            | (Returned reply, sent') => (Returned (reply_answer reply), sent')
            | (Thrown e, sent') => (Thrown e, sent')
            end).
    rewrite with_transcript_cases. cbv zeta.
    destruct (api (get_conversation conversationId)) as [| [|] s1 [details |]] eqn:Hget.
    2: destruct (api (post_analyze (reply_transcript details) question))
         as [| [|] s2 [reply |]] eqn:Hpost.
    all: cbn [fst snd answers loadingAnalysis setAnswers setLoadingAnalysis
              questions expandedQA loadingSummary geminiSummaries emailModal
              emailRecipient emailPreview loadingEmailPreview copyStatus].
    all: split; [apply lookup_insert_eq |].
    all: split;
      [intros other Hne; split;
       [first [now apply assign_lookup_ne | now apply lookup_insert_ne]
       | rewrite lookup_insert_ne by congruence; now apply lookup_insert_ne] |].
    all: split; [reflexivity |].
    all: split;
      [intros Hfail;
       first [exfalso; exact Hfail | split; [apply lookup_insert_eq | reflexivity]] |].
    all: intros s1' details' [=]; subst.
    all: rewrite ?Hpost.
    all: split; [reflexivity |].
    all: split;
      [intros Hfail; first [exfalso; exact Hfail | apply lookup_insert_eq] |].
    all: intros s2' reply' [=]; subst. apply assign_lookup.
Qed.



Lemma askQuestion_spec_witness :
  answers (fst (askQuestion sample_api "conv_1" (asking "conv_1" "When is the deadline?")))
    !! "conv_1" = Some "Next Friday."
  /\ answers (fst (askQuestion failing_api "conv_1" (asking "conv_1" "When is the deadline?")))
       !! "conv_1" = Some analysisError.
Proof.
  split.
  - destruct (proj2 (askQuestion_spec sample_api "conv_1"
                       (asking "conv_1" "When is the deadline?"))
                "When is the deadline?" ltac:(vm_compute; reflexivity) eq_refl)
      as (_ & _ & _ & _ & H).
    destruct (H 200 _ eq_refl) as (_ & _ & Hok).
    exact (Hok 200 _ eq_refl).
  - destruct (proj2 (askQuestion_spec failing_api "conv_1"
                       (asking "conv_1" "When is the deadline?"))
                "When is the deadline?" ltac:(vm_compute; reflexivity) eq_refl)
      as (_ & _ & _ & H & _).
    exact (proj1 (H I)).
Defined.



(** X29 — [confirmSendEmail] makes exactly one call, which carries the
    conversation id and the typed recipient and not the previewed text; when
    the response is ok it closes the dialog and clears the recipient and the
    preview, and on any other outcome it leaves the panel as it was.
    [sendSpaceFactEmail] posts the id without a recipient and changes
    nothing but the copy status. *)
Theorem confirmSendEmail_spec (api : Api) (conversationId : string) (ui : Panel) :
  let c := post_space_fact_email conversationId (Some (emailRecipient ui)) in
  let ui' := fst (confirmSendEmail api conversationId ui) in
  snd (confirmSendEmail api conversationId ui) = [c]
  /\ (forall preview,
        snd (confirmSendEmail api conversationId (setEmailPreview preview ui)) = [c])
  /\ (forall status data,
        api c = replied true status data ->
        emailModal ui' = None /\ emailRecipient ui' = "" /\ emailPreview ui' = ""
        /\ copyStatus ui' = Some conversationId
        /\ ui' = setCopyStatus (copyStatus ui')
                   (setEmailPreview "" (setEmailRecipient "" (setEmailModal None ui))))
  /\ (api c = unreachable \/ (exists status data, api c = replied false status data) ->
      ui' = ui)
  /\ snd (sendSpaceFactEmail api conversationId ui)
     = [post_space_fact_email conversationId None]
  /\ fst (sendSpaceFactEmail api conversationId ui)
     = setCopyStatus (copyStatus (fst (sendSpaceFactEmail api conversationId ui))) ui.
Proof.
  cbv zeta. unfold confirmSendEmail, sendSpaceFactEmail, Client.call.
  cbn [emailRecipient setEmailPreview].
  split; [| split; [| split; [| split; [| split]]]].
  - destruct (api _) as [| [|] ? ?]; reflexivity.
  - intros preview. destruct (api _) as [| [|] ? ?]; reflexivity.
  - intros status data ->. repeat split.
  - intros [-> | (status & data & ->)]; reflexivity.
  - destruct (api _) as [| [|] ? ?]; reflexivity.
  - destruct (api _) as [| [|] ? ?]; destruct ui; reflexivity.
Qed.

Lemma askQuestion_answer (api : Api) (conversationId question : string) (ui : Panel) :
  questions ui !! conversationId = Some question ->
  blank question = false ->
  answers (fst (askQuestion api conversationId ui)) !! conversationId
  = match api (get_conversation conversationId) with
    | replied true _ (Some details) =>
        match api (post_analyze (reply_transcript details) question) with
        | replied true _ (Some reply) => reply_answer reply
        | _ => Some analysisError
        end
    | _ => Some analysisError
    end.
Proof.
  intros Hq Hblank. unfold askQuestion. rewrite Hq, Hblank.
  change ((reply ← Client.with_transcript api conversationId
                     "Failed to analyze transcript"
                     (fun transcript => post_analyze transcript question);
           mret (reply_answer reply)) [])
    with (match Client.with_transcript api conversationId
                  "Failed to analyze transcript"
                  (fun transcript => post_analyze transcript question) [] with
          | (Returned reply, sent') => (Returned (reply_answer reply), sent')
          | (Thrown e, sent') => (Thrown e, sent')
          end).
  rewrite with_transcript_cases. cbv zeta.
  destruct (api (get_conversation conversationId)) as [| [|] s1 [details |]].
  2: destruct (api (post_analyze (reply_transcript details) question))
       as [| [|] s2 [reply |]].
  all: cbn [fst snd answers setAnswers setLoadingAnalysis].
  all: first [apply assign_lookup | apply lookup_insert_eq].
Qed.

Lemma blank_nonempty (s : string) : blank s = false -> s <> "".
Proof. now intros H ->. Qed.

(** [blank] on a tab, a no-break space (C2 A0), an ideographic space
    (E3 80 80) and a line separator (E2 80 A8); a letter, or a byte that
    only begins such an encoding, is not white space. *)
Lemma blank_examples :
  let bytes := fold_right (fun n s => String (ascii_of_nat n) s) "" in
  blank (bytes [9; 194; 160; 32; 227; 128; 128; 226; 128; 168]%nat) = true
  /\ blank (bytes [32; 97; 32]%nat) = false
  /\ blank (bytes [194]%nat) = false
  /\ blank (bytes [226; 128; 139]%nat) = false.
Proof. cbv zeta. repeat split. Qed.

(** X30 — a question asked on the dashboard, followed through the routes to
    the providers.  If ELEVENLABS_API_KEY or GEMINI_API_KEY is not
    configured, or the conversation comes back without a transcript, the
    panel shows 'Error analyzing transcript. Please try again.'.  If both
    are configured, the transcript provider answers ok the GET of
    https://api.elevenlabs.io/v1/convai/conversations/{id}, and the model
    provider answers ok the POST of the prompt, which contains the question
    and the message of every turn, then the panel shows the text of the
    first part of the provider's first candidate, or 'No answer generated'
    when there is no candidate or that text is missing or empty. *)
Theorem askQuestion_end_to_end (srv : Server)
    (elevenlabs : Request -> Upstream (option (list TranscriptTurn)))
    (conversationId question : string) (ui : Panel) :
  questions ui !! conversationId = Some question ->
  blank question = false ->
  let shown :=
    answers (fst (askQuestion (serve srv elevenlabs) conversationId ui))
      !! conversationId in
  (env_truthy srv "ELEVENLABS_API_KEY" = None \/ env_truthy srv "GEMINI_API_KEY" = None ->
   shown = Some analysisError)
  /\ (forall xiKey geminiKey s1 transcript,
        env_truthy srv "ELEVENLABS_API_KEY" = Some xiKey ->
        env_truthy srv "GEMINI_API_KEY" = Some geminiKey ->
        elevenlabs
          (mkRequest ("https://api.elevenlabs.io/v1/convai/conversations/" ++ conversationId)
             "GET" [xi_api_key xiKey] no_body)
        = replied true s1 (Some transcript) ->
        (transcript = None -> shown = Some analysisError)
        /\ (forall turns s2 data,
              transcript = Some turns ->
              let prompt := Analyze.prompt (formatTranscript turns) question in
              gemini (net srv)
                (mkRequest
                   ("https://generativelanguage.googleapis.com/v1beta/models/gemini-1.5-flash-latest:generateContent?key="
                    ++ geminiKey)
                   "POST" [content_type_json]
                   (generate_content prompt
                      (Some (mkGenerationConfig 0.7%Q 40 0.95%Q 1024))))
              = replied true s2 (Some data) ->
              JsString.includes prompt question = true
              /\ (forall turn, In turn turns ->
                                JsString.includes prompt (message turn) = true)
              /\ shown = Some (or_else (first_text_optional data) "No answer generated")
              /\ (forall c cs ct p ps t,
                    candidates data = Some (c :: cs) -> content c = Some ct ->
                    parts ct = Some (p :: ps) -> text p = Some t -> t <> "" ->
                    shown = Some t)
              /\ (candidates data = None \/ candidates data = Some [] ->
                  shown = Some "No answer generated")
              /\ (forall c cs ct p ps,
                    candidates data = Some (c :: cs) -> content c = Some ct ->
                    parts ct = Some (p :: ps) -> text p = None \/ text p = Some "" ->
                    shown = Some "No answer generated"))).
Proof.
  intros Hq Hblank shown. subst shown.
  rewrite (askQuestion_answer _ _ _ _ Hq Hblank).
  apply blank_nonempty in Hblank.
  destruct question as [| x q]; [congruence |]. clear Hblank.
  split.
  - intros Hmissing.
    cbn [serve]. unfold start, ConversationRoute.GET. unfold_handler.
    destruct (env_truthy srv "ELEVENLABS_API_KEY") as [xiKey |] eqn:Hxi;
      [| reflexivity].
    destruct Hmissing as [Hmissing | Hgemini]; [discriminate |].
    destruct (elevenlabs _) as [| [|] s1 [transcript |]]; try reflexivity.
    cbn. unfold Analyze.POST. unfold_handler. now rewrite Hgemini.
  - intros xiKey geminiKey s1 transcript Hxi Hgemini Hprovider.
    change (mkRequest _ "GET" _ _)
      with (ConversationRoute.provider_request "GET" xiKey conversationId)
      in Hprovider.
    split.
    + intros ->.
      cbn [serve]. unfold start, ConversationRoute.GET. unfold_handler.
      rewrite Hxi, Hprovider. cbn.
      unfold Analyze.POST. unfold_handler. now rewrite Hgemini.
    + intros turns s2 data -> prompt Hdata.
      change (mkRequest _ "POST" _ _)
        with (Analyze.provider_request geminiKey prompt) in Hdata.
      match goal with
      | |- _ /\ _ /\ ?shown = _ /\ _ =>
          assert (Hshown : shown = Some (or_else (first_text_optional data)
                                           "No answer generated"))
      end.
      { cbn [serve]. unfold start, ConversationRoute.GET. unfold_handler.
        rewrite Hxi, Hprovider. cbn.
        unfold Analyze.POST. unfold_handler. rewrite Hgemini.
        cbn. fold prompt. now rewrite Hdata. }
      split; [| split; [| split; [| split; [| split]]]].
      * subst prompt. unfold Analyze.prompt.
        apply includes_append_r, includes_append_r, includes_append_r,
          includes_append_l, includes_refl.
      * intros turn Hin. subst prompt. unfold Analyze.prompt.
        apply includes_append_r, includes_append_l.
        now apply formatTranscript_embeds.
      * exact Hshown.
      * intros c cs ct p ps t Hc Hct Hp Ht Hne. rewrite Hshown. f_equal.
        apply or_else_text; [| exact Hne].
        unfold first_text_optional. now rewrite Hc, Hct, Hp.
      * intros Hnone. rewrite Hshown. f_equal.
        apply or_else_fallback. left. now apply first_text_no_candidate.
      * intros c cs ct p ps Hc Hct Hp Ht. rewrite Hshown. f_equal.
        apply or_else_fallback.
        unfold first_text_optional. now rewrite Hc, Hct, Hp.
Qed.

Lemma askQuestion_end_to_end_witness :
  answers (fst (askQuestion
                  (serve (full_server (single_candidate "Next Friday."))
                     (provider_sending (Some scenario_transcript)))
                  "conv_1" (asking "conv_1" "When is the deadline?")))
    !! "conv_1"
  = Some "Next Friday.".
Proof.
  apply (proj2 (askQuestion_end_to_end
                  (full_server (single_candidate "Next Friday."))
                  (provider_sending (Some scenario_transcript))
                  "conv_1" "When is the deadline?"
                  (asking "conv_1" "When is the deadline?")
                  ltac:(vm_compute; reflexivity) eq_refl)
           "xi-key" "gemini-key" 200 (Some scenario_transcript)
           ltac:(vm_compute; reflexivity) ltac:(vm_compute; reflexivity) eq_refl)
    with (turns := scenario_transcript) (s2 := 200)
         (data := single_candidate "Next Friday."); reflexivity.
Defined.
